(** * RAIN-CHECK (app3.py): text extraction, analysis orchestration,
      markup cleaning, report compilation and the page script.

    A shallow embedding of the four functions of [app3.py] that carry the
    pipeline: [extract_text_from_pdf], [clean_markdown], [create_pdf_report]
    and [get_all_analyses_single] (with [call_openai_single]), and of the
    script that calls them on every run of the page.

    Python values are modelled as follows.
    - A [str] is a list of Unicode code points ([N]).
    - A raised exception is the left injection of a sum; a returned value is
      the right injection.
    - The libraries the program calls (PyMuPDF, the OpenAI client, FPDF, the
      file system, the secret store) are outside the repository: they are
      Section variables. The [FPDF] object records the calls made on it;
      whether a call raises is the library's, the file system is the
      predicate [os.path.isfile].
    - What can fail: reading the API key, parsing the upload, a remote
      call, the font check, and every call on the [FPDF] object after
      [add_page]; the program catches none of these.

    The definitions come first (the program, then what the statements need
    to speak about it), the facts and theorems after them. *)

From Stdlib Require Import List NArith ZArith Arith Bool Lia String Ascii.
Import ListNotations.

Set Implicit Arguments.

(* ================================================================== *)
(** * Python strings *)

Module Py.

(** A character is a Unicode code point. *)
Definition char := N.
Definition str := list char.

(** [py "abc"] is the Python string with the same (ASCII) characters. *)
Definition py (s : string) : str :=
  List.map N_of_ascii (list_ascii_of_string s).

(** The double quote (U+0022), and a run of three of them. *)
Definition dquote : char := 34%N.
Definition dq3 : str := [dquote; dquote; dquote].

Definition c_nl : char := 10%N.        (* line feed *)
Definition c_hash : char := 35%N.      (* number sign *)
Definition c_star : char := 42%N.      (* asterisk *)
Definition c_under : char := 95%N.     (* underscore *)
Definition c_tick : char := 96%N.      (* backtick *)

Definition is_nl (c : char) : bool := N.eqb c c_nl.
Definition is_hash (c : char) : bool := N.eqb c c_hash.
Definition is_tick (c : char) : bool := N.eqb c c_tick.

Definition no_hash (c : char) : Prop := is_hash c = false.
Definition no_tick (c : char) : Prop := is_tick c = false.

(** [str.isspace] on one character, which is also what [\s] matches in a
    [str] pattern: CPython's [_PyUnicode_IsWhitespace]. *)
Definition isspace (c : char) : bool :=
  ((9 <=? c) && (c <=? 13) || (28 <=? c) && (c <=? 32)
   || (c =? 133) || (c =? 160) || (c =? 5760)
   || (8192 <=? c) && (c <=? 8202)
   || (c =? 8232) || (c =? 8233) || (c =? 8239) || (c =? 8287)
   || (c =? 12288))%N.

Fixpoint str_eqb (a b : str) : bool :=
  match a, b with
  | [], [] => true
  | x :: a', y :: b' => N.eqb x y && str_eqb a' b'
  | _, _ => false
  end.

(** [lstrip], [rstrip] and [strip] with no argument. *)
Fixpoint lstrip (s : str) : str :=
  match s with
  | c :: s' => if isspace c then lstrip s' else s
  | [] => []
  end.

Definition rstrip (s : str) : str := rev (lstrip (rev s)).

Definition strip (s : str) : str := rstrip (lstrip s).

(** The first character, if there is one, is no white space. *)
Definition head_ok (s : str) : bool :=
  match s with
  | [] => true
  | c :: _ => negb (isspace c)
  end.

(** No two strings of the list are equal. *)
Fixpoint distinct (l : list str) : bool :=
  match l with
  | [] => true
  | x :: l' => negb (existsb (str_eqb x) l') && distinct l'
  end.

(** Exceptions the pipeline can raise or let through. *)
Inductive exn : Type :=
| FileNotFoundError (msg : str)
| ExternalError (origin : str) (detail : N).

Definition result (A : Type) : Type := (exn + A)%type.

End Py.
Import Py.

(* ================================================================== *)
(** * Regular expressions: the fragment [re.sub] is called with *)

Module Re.

(** The patterns of [clean_markdown] are built from literals, alternation,
    sequence and the greedy repetition of one character class. *)
Inductive regex : Type :=
| Lit (w : str)                       (* the characters of w *)
| Alt (r1 r2 : regex)                 (* r1|r2 *)
| Seq (r1 r2 : regex)                 (* r1r2 *)
| Rep (lo : nat) (cls : char -> bool) (* cls{lo,}, greedy *).

Fixpoint is_prefix (w s : str) : bool :=
  match w, s with
  | [], _ => true
  | x :: w', y :: s' => N.eqb x y && is_prefix w' s'
  | _ :: _, [] => false
  end.

(** Length of the longest prefix of [s] whose characters satisfy [p]. *)
Fixpoint span (p : char -> bool) (s : str) : nat :=
  match s with
  | c :: s' => if p c then S (span p s') else 0
  | [] => 0
  end.

(** The lengths of all matches of [r] at the start of [s], in the order in
    which a backtracking matcher finds them: the left alternative before
    the right one, a longer repetition before a shorter one, and in a
    sequence every continuation of an earlier match of the first part
    before any of a later one. *)
Fixpoint all_matches (r : regex) (s : str) : list nat :=
  match r with
  | Lit w => if is_prefix w s then [List.length w] else []
  | Alt r1 r2 => all_matches r1 s ++ all_matches r2 s
  | Seq r1 r2 =>
      flat_map (fun n => List.map (Nat.add n) (all_matches r2 (skipn n s)))
        (all_matches r1 s)
  | Rep lo cls => rev (seq lo (S (span cls s) - lo))
  end.

(** The match [re] reports at the start of [s]: the first one found. *)
Definition match_len (r : regex) (s : str) : option nat :=
  hd_error (all_matches r s).

(** [re.sub(pattern, repl, s)] for a pattern that matches no empty string
    (none of the four patterns of [clean_markdown] does, see
    [patterns_match_nonempty] below): scan left to right; where the pattern
    matches, emit [repl] and resume after the match, otherwise copy the
    character.  [skip] counts the characters of the current match still to
    be dropped. *)
Fixpoint sub_from (r : regex) (repl : str) (skip : nat) (s : str) : str :=
  match s with
  | [] => []
  | c :: s' =>
      match skip with
      | S k => sub_from r repl k s'
      | O =>
          match match_len r s with
          | Some (S k) => repl ++ sub_from r repl k s'
          | _ => c :: sub_from r repl O s'
          end
      end
  end.

Definition sub (r : regex) (repl : str) (s : str) : str := sub_from r repl 0 s.

(** [r] matches a non-empty string at the start of [s]. *)
Definition matches_at (r : regex) (s : str) : bool :=
  match match_len r s with
  | Some (S _) => true
  | _ => false
  end.

(** [r] matches somewhere in [s] ([re.search] finds a non-empty match). *)
Fixpoint has_match (r : regex) (s : str) : bool :=
  match s with
  | [] => false
  | _ :: s' => matches_at r s || has_match r s'
  end.

(** [w in s]: the string [w] occurs in [s]. *)
Fixpoint occurs (w s : str) : bool :=
  is_prefix w s ||
  match s with
  | [] => false
  | _ :: s' => occurs w s'
  end.

End Re.
Import Re.

(* ================================================================== *)
(** * 6) Markdown-cleaning helper *)

(** The pattern [(\*\*|__)]: two asterisks or two underscores. *)
Definition re_bold : regex := Alt (Lit (py "**")) (Lit (py "__")).
(** The pattern [#+\s*] (in one group): one or more number signs, then any
    run of white space. *)
Definition re_heading : regex := Seq (Rep 1 is_hash) (Rep 0 isspace).
(** The pattern of one backtick. *)
Definition re_backtick : regex := Lit (py "`").
(** The pattern [\n{3,}]: three or more line feeds. *)
Definition re_newlines : regex := Rep 3 is_nl.

Definition clean_markdown (text : str) : str :=
  let text := Re.sub re_bold [] text in               (* remove bold markers *)
  let text := Re.sub re_heading [] text in            (* remove headings *)
  let text := Re.sub re_backtick [] text in           (* remove backticks *)
  let text := Re.sub re_newlines [c_nl; c_nl] text in (* collapse line breaks *)
  strip text.

(** The text still holds a bold marker: two asterisks or two underscores
    in a row. *)
Definition has_bold_marker (s : str) : bool :=
  occurs (py "**") s || occurs (py "__") s.

(** The characters [clean_markdown] may drop: the four marker characters
    and white space. *)
Definition is_marker (c : char) : bool :=
  N.eqb c c_star || N.eqb c c_under || is_hash c || is_tick c.

Definition droppable (c : char) : bool := is_marker c || isspace c.

(** The characters of a text that are neither marker nor white space, in
    order. *)
Definition content (s : str) : str := filter (fun c => negb (droppable c)) s.

(** [Subseq a b]: [a] is [b] with some characters deleted. *)
Inductive Subseq : str -> str -> Prop :=
| Subseq_nil : Subseq [] []
| Subseq_keep (c : char) (a b : str) : Subseq a b -> Subseq (c :: a) (c :: b)
| Subseq_drop (c : char) (a b : str) : Subseq a b -> Subseq a (c :: b).

(* ================================================================== *)
(** * Effects: state and exceptions *)

Module Eff.

Section StateError.
Variable St : Type.

(** A computation reads and updates a state of type [St] and either
    returns a value or raises; the state reached is kept in both cases. *)
Definition M (A : Type) : Type := St -> St * result A.

Definition ret (A : Type) (a : A) : M A := fun s => (s, inr a).

Definition raise (A : Type) (e : exn) : M A := fun s => (s, inl e).

Definition bind (A B : Type) (m : M A) (f : A -> M B) : M B :=
  fun s =>
    match m s with
    | (s', inr a) => f a s'
    | (s', inl e) => (s', inl e)
    end.

(** [for x in xs: acc = body acc x], leaving the loop at the first
    exception. *)
Fixpoint for_each (A B : Type) (xs : list A) (body : B -> A -> M B) (acc : B)
  : M B :=
  match xs with
  | [] => ret acc
  | x :: xs' => bind (body acc x) (fun acc' => for_each xs' body acc')
  end.

End StateError.

Arguments ret {St A} a _.
Arguments raise {St A} e _.
Arguments bind {St A B} m f _.
Arguments for_each {St A B} xs body acc _.

End Eff.
Import Eff.

Declare Scope eff_scope.
Delimit Scope eff_scope with eff.
Notation "x <- m ;; k" := (bind m (fun x => k))
  (at level 61, m at next level, right associativity) : eff_scope.
Notation "m ;;; k" := (bind m (fun _ => k))
  (at level 61, right associativity) : eff_scope.
Open Scope eff_scope.

(* ================================================================== *)
(** * Dictionaries *)

(** A [dict] with [str] keys and values, in insertion order. *)
Definition dict : Type := list (str * str).

(** [d.items()]. *)
Definition items (d : dict) : list (str * str) := d.

(** [d[k] = v]: an existing key keeps its place, a new key goes last. *)
Fixpoint dict_set (d : dict) (k v : str) : dict :=
  match d with
  | [] => [(k, v)]
  | (k', v') :: d' =>
      if str_eqb k k' then (k', v) :: d' else (k', v') :: dict_set d' k v
  end.

Definition keys (d : dict) : list str := List.map fst d.

(* ================================================================== *)
(** * 4) Function to extract text from uploaded PDF *)

Module Extractor.

Section Fitz.
(** PyMuPDF: [fitz.open(stream=..., filetype=...)] parses the bytes into a
    document, a sequence of pages, or raises; [page.get_text()] is the text
    of one page. *)
Variable Page : Type.
Variable fitz_open : list Byte.byte -> result (list Page).
Variable get_text : Page -> str.

(** [pdf_file] is the content its [read()] returns. *)
Definition extract_text_from_pdf (pdf_file : list Byte.byte) : result str :=
  match fitz_open pdf_file with
  | inl e => inl e
  | inr doc =>
      let text := fold_left (fun text page => text ++ get_text page) doc [] in
      inr text
  end.

End Fitz.

End Extractor.

(* ================================================================== *)
(** * 7) PDF generation function *)

Module Report.

(** The calls [create_pdf_report] makes on its [FPDF] object. *)
Inductive pdf_op : Type :=
| AddPage
| AddFont (family style fname : str) (uni : bool)
| SetFont (family style : str) (size : N)
| Cell (w h : N) (txt : str) (ln : bool) (align : str)
| Ln (h : N)
| MultiCell (w h : N) (txt : str).

(** A [BytesIO] the document was written to: FPDF serialises the calls
    recorded on the object, so the stream is determined by them; [rewound]
    says that the read position is back at 0. *)
Record BytesIO : Type := { document : list pdf_op; rewound : bool }.

(** What the function allocates and mutates: the [FPDF] object (the calls
    made on it so far, oldest first) and the [BytesIO] objects created. *)
Record heap : Type := { pdf : list pdf_op; buffers : nat }.

Definition FPDF : heap := {| pdf := []; buffers := 0 |}.

(** The library, seen from the program. A call on the [FPDF] object may
    raise: [add_font] reads and parses the font file, [set_font] looks the
    font up, [cell] and [multi_cell] lay the text out with the font's
    tables, [output] serialises the document and embeds the fonts; no call
    of the function is guarded by [try]. [raises done op] is the exception
    of the call [op] made after the calls [done], if it raises, and
    [output_raises done] the one of [output]. *)
Record library : Type := {
  raises : list pdf_op -> pdf_op -> option exn;
  output_raises : list pdf_op -> option exn
}.

(** [pdf.add_page()] on the new object, line 61: it starts the first page;
    no file is read and no font is in use yet. *)
Definition add_page : M heap unit :=
  fun h => ({| pdf := pdf h ++ [AddPage]; buffers := buffers h |}, inr tt).

Definition seek0 (b : BytesIO) : BytesIO :=
  {| document := document b; rewound := true |}.

Definition font_regular : str := py "DejaVuSans.ttf".
Definition font_bold : str := py "DejaVuSans-Bold.ttf".
Definition font_error : str :=
  py "Font files not found. Make sure DejaVu fonts are in the app folder.".
Definition report_title : str := py "Screenplay Analysis Report".

Section FileSystem.
(** [os.path.isfile]. *)
Variable isfile : str -> bool.
(** The FPDF library. *)
Variable fpdf : library.

(** Any later call on the object: it is recorded when it returns. *)
Definition call (op : pdf_op) : M heap unit :=
  fun h =>
    match raises fpdf (pdf h) op with
    | Some e => (h, inl e)
    | None => ({| pdf := pdf h ++ [op]; buffers := buffers h |}, inr tt)
    end.

(** [buffer = BytesIO(); pdf.output(buffer)]. *)
Definition output_to_new_buffer : M heap BytesIO :=
  fun h =>
    let h' := {| pdf := pdf h; buffers := S (buffers h) |} in
    match output_raises fpdf (pdf h) with
    | Some e => (h', inl e)
    | None => (h', inr {| document := pdf h; rewound := false |})
    end.

Definition create_pdf_report_body (data : dict) : M heap BytesIO :=
  add_page ;;;
  if negb (isfile font_regular) || negb (isfile font_bold)
  then raise (FileNotFoundError font_error)
  else
    call (AddFont (py "DejaVu") (py "") font_regular true) ;;;
    call (AddFont (py "DejaVu") (py "B") font_bold true) ;;;
    call (SetFont (py "DejaVu") (py "B") 16) ;;;
    call (Cell 0 10 report_title true (py "C")) ;;;
    call (Ln 10) ;;;
    for_each (items data)
      (fun _ '(section, content) =>
         call (SetFont (py "DejaVu") (py "B") 14) ;;;
         call (Cell 0 10 section true (py "")) ;;;
         call (Ln 2) ;;;
         call (SetFont (py "DejaVu") (py "") 12) ;;;
         let cleaned_content := clean_markdown content in
         call (MultiCell 0 8 cleaned_content) ;;;
         call (Ln 10)) tt ;;;
    buffer <- output_to_new_buffer ;;
    ret (seek0 buffer).

(** The function creates its [FPDF] object itself; the heap it leaves is
    returned with the result, so that what was done before an exception
    can be read off. *)
Definition create_pdf_report (data : dict) : heap * result BytesIO :=
  create_pdf_report_body data FPDF.

End FileSystem.

(** The calls made before the loop when both fonts are there, and the
    calls the loop makes for one entry of [data]. *)
Definition header_ops : list pdf_op :=
  [ AddPage;
    AddFont (py "DejaVu") (py "") font_regular true;
    AddFont (py "DejaVu") (py "B") font_bold true;
    SetFont (py "DejaVu") (py "B") 16;
    Cell 0 10 report_title true (py "C");
    Ln 10 ].

Definition section_ops (entry : str * str) : list pdf_op :=
  [ SetFont (py "DejaVu") (py "B") 14;
    Cell 0 10 (fst entry) true (py "");
    Ln 2;
    SetFont (py "DejaVu") (py "") 12;
    MultiCell 0 8 (clean_markdown (snd entry));
    Ln 10 ].

(** The text of each [cell] call, in order: the title and the section
    headings. *)
Fixpoint cell_texts (ops : list pdf_op) : list str :=
  match ops with
  | [] => []
  | Cell _ _ txt _ _ :: ops' => txt :: cell_texts ops'
  | _ :: ops' => cell_texts ops'
  end.

(** The font files of the [add_font] calls, in order. *)
Fixpoint registered_fonts (ops : list pdf_op) : list str :=
  match ops with
  | [] => []
  | AddFont _ _ fname _ :: ops' => fname :: registered_fonts ops'
  | _ :: ops' => registered_fonts ops'
  end.

(** The text of each [multi_cell] call, in order: the section bodies. *)
Fixpoint multi_cell_texts (ops : list pdf_op) : list str :=
  match ops with
  | [] => []
  | MultiCell _ _ txt :: ops' => txt :: multi_cell_texts ops'
  | _ :: ops' => multi_cell_texts ops'
  end.

(** The calls of a complete run, and the first exception the library
    raises when the calls [todo] are made one after the other on an object
    on which [done] have been made. *)
Definition report_ops (data : dict) : list pdf_op :=
  header_ops ++ flat_map section_ops (items data).

Fixpoint first_error (fpdf : library) (done todo : list pdf_op) : option exn :=
  match todo with
  | [] => None
  | op :: todo' =>
      match raises fpdf done op with
      | Some e => Some e
      | None => first_error fpdf (done ++ [op]) todo'
      end
  end.

(** The library accepts the report of [data]: none of the calls made
    after [add_page] raises, nor does [output]. *)
Definition accepts (fpdf : library) (data : dict) : bool :=
  match first_error fpdf [AddPage] (tl (report_ops data)),
        output_raises fpdf (report_ops data) with
  | None, None => true
  | _, _ => false
  end.

End Report.

(* ================================================================== *)
(** * 5) Single-call OpenAI helper, 8) prompts and one query per section *)

Module Orchestrator.

(** One chat-completion request. [temperature] is a decimal fraction,
    numerator and denominator. *)
Record request : Type := {
  model : str;
  system_content : str;
  user_content : str;
  temperature : N * N;
  max_tokens : N
}.

Definition system_prompt : str :=
  py "You are an AI chatbot automating script improvements and providing data-driven insights (casting, budget, scheduling, marketing) to film producers.".

Definition chat_request (prompt model : str) (temperature : N * N)
  (max_tokens : N) : request :=
  {| model := model; system_content := system_prompt; user_content := prompt;
     temperature := temperature; max_tokens := max_tokens |}.

(** The opening of the screenplay block in every prompt: a blank line, the
    label, and the opening triple quote. *)
Definition screenplay_open : str := py "

Screenplay:
" ++ dq3.

Definition instr_logline : str := py "Write a Hollywood-style logline for my screenplay. It should only contain the logline, making it engaging and high-concept.".

Definition instr_genre : str := py "Suggest the genre for the provided screenplay. By genre, we mean a particular type or style of literature, art, film, or music recognizable by its special characteristics.".

Definition instr_top_keywords : str := py "Give the top 10 keywords of the attached movie screenplay without any explanation.".

Definition instr_location_setting : str := py "Give the location setting of the attached movie screenplay, considering only the primary location.".

Definition instr_synopsis : str := py "Give only the synopsis of the attached screenplay.".

Definition instr_script_score : str := py "Analyze the attached screenplay and give it a script score out of 10, including:
- Character development score (out of 10) with 1-2 lines explanation
- Plot construction (out of 10) with 1-2 lines explanation
- Dialogue (out of 10) with 1-2 lines explanation
- Originality (out of 10) with 1-2 lines explanation
- Emotional engagement (out of 10) with 1-2 lines explanation
- Theme and message (out of 10) with 1-2 lines explanation
- Overall rating out of 10 with explanation".

Definition instr_plot_assessment : str := py "Analyze the attached screenplay and give the plot assessment and enhancement, including:
- 5 points of what is working well (positive aspects)
- 5 points where the screenplay lacks
- 5 points of improvements that may be made
- An overall review of the screenplay".

Definition instr_character_profiling : str := py "Analyze the attached screenplay and return character profiling for the main characters, including:
- Brief description of each main character
- What is working well for each character
- Areas for improvement
- The archetype for each".

Definition instr_box_office_collection : str := py "Analyze the attached screenplay and give its box office prediction with the following fields:
- Opening day (global and local)
- Opening week (global and local)
- Opening month (global and local)".

(** The [prompts] dictionary. Every value is an f-string: the instruction,
    the opening of the screenplay block, the text, the closing triple
    quote. *)
Definition prompts (screenplay_text : str) : dict :=
  [ (py "Logline",
     instr_logline ++ screenplay_open ++ screenplay_text ++ dq3);
    (py "Genre",
     instr_genre ++ screenplay_open ++ screenplay_text ++ dq3);
    (py "Top Keywords",
     instr_top_keywords ++ screenplay_open ++ screenplay_text ++ dq3);
    (py "Location Setting",
     instr_location_setting ++ screenplay_open ++ screenplay_text ++ dq3);
    (py "Synopsis",
     instr_synopsis ++ screenplay_open ++ screenplay_text ++ dq3);
    (py "Script Score",
     instr_script_score ++ screenplay_open ++ screenplay_text ++ dq3);
    (py "Plot Assessment",
     instr_plot_assessment ++ screenplay_open ++ screenplay_text ++ dq3);
    (py "Character Profiling",
     instr_character_profiling ++ screenplay_open ++ screenplay_text ++ dq3);
    (py "Box Office Collection",
     instr_box_office_collection ++ screenplay_open ++ screenplay_text ++ dq3) ].

Section Remote.
(** The remote service: given its present state and a request it moves to
    a new state and answers with the completion's text or fails. *)
Variable World : Type.
Variable remote : World -> request -> World * result str.

(** The service's state and the requests sent to it so far, oldest
    first. *)
Record session : Type := { world : World; sent : list request }.

Definition call_openai_single (prompt model : str) (temperature : N * N)
  (max_tokens : N) : M session str :=
  fun st =>
    let req := chat_request prompt model temperature max_tokens in
    let (w, response) := remote (world st) req in
    ({| world := w; sent := sent st ++ [req] |}, response).

Definition get_all_analyses_single (screenplay_text : str) : M session dict :=
  let prompts := prompts screenplay_text in
  let results : dict := [] in
  for_each (items prompts)
    (fun results '(section_name, prompt_text) =>
       ai_response <-
         call_openai_single prompt_text (py "gpt-4o-mini") (7, 10)%N 1200 ;;
       ret (dict_set results section_name ai_response))
    results.

(** The body of the loop of [get_all_analyses_single], by name. *)
Definition loop_body (results : dict) (entry : str * str) : M session dict :=
  let '(section_name, prompt_text) := entry in
  ai_response <-
    call_openai_single prompt_text (py "gpt-4o-mini") (7, 10)%N 1200 ;;
  ret (dict_set results section_name ai_response).

(** What the service does with a sequence of requests, whoever sends
    them: its final state and its answers, one per request. *)
Fixpoint serve (w : World) (reqs : list request) : World * list (result str) :=
  match reqs with
  | [] => (w, [])
  | q :: reqs' =>
      let (w1, r) := remote w q in
      let (w2, rs) := serve w1 reqs' in
      (w2, r :: rs)
  end.

End Remote.

(** The request [get_all_analyses_single] builds from a prompt. *)
Definition batch_request (prompt : str) : request :=
  chat_request prompt (py "gpt-4o-mini") (7, 10)%N 1200.

(** The requests for a list of (section, prompt) pairs, in order. *)
Definition requests (ps : list (str * str)) : list request :=
  List.map (fun p => batch_request (snd p)) ps.

(** The nine section names and the nine instruction texts, in the order
    of the [prompts] dictionary. *)
Definition categories : list str :=
  [ py "Logline"; py "Genre"; py "Top Keywords"; py "Location Setting";
    py "Synopsis"; py "Script Score"; py "Plot Assessment";
    py "Character Profiling"; py "Box Office Collection" ].

Definition instructions : list str :=
  [ instr_logline; instr_genre; instr_top_keywords; instr_location_setting;
    instr_synopsis; instr_script_score; instr_plot_assessment;
    instr_character_profiling; instr_box_office_collection ].

End Orchestrator.

(* ================================================================== *)
(** * [os.path.splitext] *)

Module PosixPath.

Definition c_slash : char := 47%N.     (* the separator of POSIX paths *)
Definition c_dot : char := 46%N.       (* the extension separator *)

(** [p.rfind(c)]: the highest index at which [c] stands in [p], or -1;
    [i] is the index of the first character of [p]. *)
Fixpoint rfind_from (c : char) (p : str) (i : Z) : Z :=
  match p with
  | [] => (-1)%Z
  | x :: p' =>
      let later := rfind_from c p' (i + 1)%Z in
      if (0 <=? later)%Z then later
      else if N.eqb x c then i else (-1)%Z
  end.

Definition rfind (c : char) (p : str) : Z := rfind_from c p 0%Z.

(** [p[a:b]] for [0 <= a]. *)
Definition slice (p : str) (a b : Z) : str :=
  firstn (Z.to_nat (b - a)) (skipn (Z.to_nat a) p).

(** [posixpath.splitext], that is [genericpath._splitext] with separator
    [/], no alternative separator and extension separator [.]: the
    extension starts at the last dot of the last path component, unless
    only dots stand before it in that component. *)
Definition splitext (p : str) : str * str :=
  let sepIndex := rfind c_slash p in
  let dotIndex := rfind c_dot p in
  if (sepIndex <? dotIndex)%Z
  then
    (* skip all leading dots *)
    if existsb (fun c => negb (N.eqb c c_dot)) (slice p (sepIndex + 1) dotIndex)
    then (firstn (Z.to_nat dotIndex) p, skipn (Z.to_nat dotIndex) p)
    else (p, [])
  else (p, []).

End PosixPath.

(* ================================================================== *)
(** * 1) to 3) and 9) Main Streamlit UI: one run of the script *)

Module App.
Import Report Orchestrator PosixPath.

(** What a run puts on the page, in order. *)
Inductive ui : Type :=
| PageConfig (page_title : str)
| Title (body : str)
| FileUploader (label : str) (types : list str)
| Spinner (text : str)
| Success (body : str)
| Info (body : str)
| Button (label : str)
| Write (body : str)
| DownloadButton (label : str) (data : BytesIO) (file_name mime : str).

(** [st.session_state]: a key is absent ([None]) or holds a value; the
    value of [current_movie] is Python's [None] or a name. *)
Record session_state : Type := {
  current_movie : option (option str);
  screenplay_text : option str
}.

(** [a != b] for a value that is [None] or a string and a string. *)
Definition differs (a : option str) (b : str) : bool :=
  match a with
  | None => true
  | Some m => negb (str_eqb m b)
  end.

(** [if all_results:] a dictionary is true when it is not empty. *)
Definition truthy (d : dict) : bool :=
  match d with
  | [] => false
  | _ :: _ => true
  end.

Definition key_error (key : str) : exn := ExternalError key 0.

Definition ellipsis : char := 8230%N.

Section Script.
(** The environment of a run: PyMuPDF, the remote service, the file
    system and the secret store. *)
Variable Page : Type.
Variable fitz_open : list Byte.byte -> result (list Page).
Variable get_text : Page -> str.
Variable World : Type.
Variable remote : World -> request -> World * result str.
Variable isfile : str -> bool.
Variable fpdf : library.
Variable secrets : str -> option str.

(** What persists or is observed: the session state, the remote service
    with the requests sent to it, and the page. *)
Record runtime : Type := {
  state : session_state;
  api : session World;
  screen : list ui
}.

Definition show (e : ui) : M runtime unit :=
  fun a => ({| state := state a; api := api a; screen := screen a ++ [e] |},
            inr tt).

Definition get_state : M runtime session_state := fun a => (a, inr (state a)).

Definition put_state (s : session_state) : M runtime unit :=
  fun a => ({| state := s; api := api a; screen := screen a |}, inr tt).

(** A call of a function that returns or raises and touches nothing
    else. *)
Definition lift_result (A : Type) (r : result A) : M runtime A :=
  fun a => (a, r).

(** A call of a function that talks to the remote service. *)
Definition lift_api (A : Type) (m : M (session World) A) : M runtime A :=
  fun a =>
    let (s, r) := m (api a) in
    ({| state := state a; api := s; screen := screen a |}, r).

(** [st.secrets[key]], [st.session_state["current_movie"]] and
    [st.session_state["screenplay_text"]]. *)
Definition read_secret (key : str) : M runtime str :=
  match secrets key with
  | Some v => ret v
  | None => raise (key_error key)
  end.

Definition read_current_movie : M runtime (option str) :=
  st <- get_state ;;
  match current_movie st with
  | Some v => ret v
  | None => raise (key_error (py "current_movie"))
  end.

Definition read_screenplay_text : M runtime str :=
  st <- get_state ;;
  match screenplay_text st with
  | Some v => ret v
  | None => raise (key_error (py "screenplay_text"))
  end.

(** Lines 179 to 183: extract text on first upload or when the movie
    changes. *)
Definition extract_on_upload (movie_name : str) (uploaded_file : list Byte.byte)
  : M runtime unit :=
  st <- get_state ;;
  changed <-
    match screenplay_text st with
    | None => ret true
    | Some _ => m <- read_current_movie ;; ret (differs m movie_name)
    end ;;
  if changed : bool
  then
    show (Spinner (py "Extracting screenplay...")) ;;;
    text <- lift_result
              (Extractor.extract_text_from_pdf fitz_open get_text
                 uploaded_file) ;;
    st <- get_state ;;
    put_state {| current_movie := current_movie st;
                 screenplay_text := Some text |} ;;;
    st <- get_state ;;
    put_state {| current_movie := Some (Some movie_name);
                 screenplay_text := screenplay_text st |} ;;;
    show (Success (py "Screenplay extracted and ready!"))
  else ret tt.

(** Lines 186 to 207: analyse, display each section, offer the PDF. *)
Definition generate_report (movie_name : str) : M runtime unit :=
  show (Spinner (py "Analyzing screenplay" ++ [ellipsis])) ;;;
  text <- read_screenplay_text ;;
  all_results <- lift_api (get_all_analyses_single remote text) ;;
  if truthy all_results
  then
    show (Write (py "**Analysis Results**")) ;;;
    show (Write (py "")) ;;;
    for_each (items all_results)
      (fun _ '(section, content) =>
         show (Write (py "**" ++ section ++ py ":**")) ;;;
         show (Write (clean_markdown content)) ;;;
         show (Write (py ""))) tt ;;;
    pdf_file <- lift_result (snd (create_pdf_report isfile fpdf all_results)) ;;
    show (Success (py "Analysis complete!")) ;;;
    show (DownloadButton (py "Download Analysis Report as PDF") pdf_file
            (movie_name ++ py "-report.pdf") (py "application/pdf"))
  else ret tt.

(** One run of the script: [uploaded_file] is what [st.file_uploader]
    returns (the name and the content of the file, if one is uploaded),
    [generate] what [st.button] returns. *)
Definition script (uploaded_file : option (str * list Byte.byte))
  (generate : bool) : M runtime unit :=
  (* 1) page configuration *)
  show (PageConfig (py "RAIN-CHECK")) ;;;
  (* 2) session state for the current movie *)
  st <- get_state ;;
  match current_movie st with
  | None => put_state {| current_movie := Some None;
                         screenplay_text := screenplay_text st |}
  | Some _ => ret tt
  end ;;;
  (* 3) the API key *)
  _ <- read_secret (py "OPENAI_API_KEY") ;;
  (* 9) the page *)
  show (Title (py "RAIN-CHECK")) ;;;
  show (FileUploader (py "Upload a movie screenplay (PDF)") [py "pdf"]) ;;;
  match uploaded_file with
  | Some (name, content) =>
      let movie_name := fst (splitext name) in
      extract_on_upload movie_name content ;;;
      show (Button (py "Generate Report")) ;;;
      if generate then generate_report movie_name else ret tt
  | None =>
      show (Info (py "Please upload a PDF screenplay to begin analysis."))
  end.

End Script.

(** The key [current_movie] is there after lines 13 and 14. *)
Definition with_movie_key (st : session_state) : session_state :=
  match current_movie st with
  | None => {| current_movie := Some None;
               screenplay_text := screenplay_text st |}
  | Some _ => st
  end.

(** The condition of line 179 on the state left by line 14: there is no
    text yet, or the movie stored is not this one. *)
Definition needs_extraction (st : session_state) (movie_name : str) : bool :=
  match screenplay_text st with
  | None => true
  | Some _ =>
      match current_movie st with
      | Some v => differs v movie_name
      | None => true
      end
  end.

(** What every run shows first. *)
Definition page_head : list ui :=
  [ PageConfig (py "RAIN-CHECK");
    Title (py "RAIN-CHECK");
    FileUploader (py "Upload a movie screenplay (PDF)") [py "pdf"] ].

(** The state of a run when the page head is shown. *)
Definition started (World : Type) (a : runtime World) : runtime World :=
  {| state := with_movie_key (state a);
     api := api a;
     screen := screen a ++ page_head |}.

(** The analysis as it is displayed: a caption, then for every section its
    name in bold, its cleaned text and an empty line. *)
Definition results_view (all_results : dict) : list ui :=
  Write (py "**Analysis Results**") :: Write (py "") ::
  flat_map (fun entry =>
              [ Write (py "**" ++ fst entry ++ py ":**");
                Write (clean_markdown (snd entry));
                Write (py "") ])
    all_results.

(** The texts written on the page, in order. *)
Fixpoint written (page : list ui) : list str :=
  match page with
  | [] => []
  | Write body :: page' => body :: written page'
  | _ :: page' => written page'
  end.

End App.

(* ================================================================== *)
(** * Sample environments *)

Module Samples.
Import Orchestrator.

(** A two-page document: pages are their own text. *)
Definition two_pages : list str := [py "INT. KITCHEN - DAY"; py " Rain."].

Definition open_two_pages (_ : list Byte.byte) : result (list str) :=
  inr two_pages.

Definition open_one_page (_ : list Byte.byte) : result (list str) :=
  inr [py "FADE IN:"].

Definition open_no_page (_ : list Byte.byte) : result (list str) := inr [].

Definition parse_error : exn := ExternalError (py "fitz") 1.

Definition open_broken (_ : list Byte.byte) : result (list str) :=
  inl parse_error.

(** File systems: every file is there, none is, only the regular font
    is. *)
Definition all_files (_ : str) : bool := true.
Definition no_files (_ : str) : bool := false.
Definition only_regular (f : str) : bool := str_eqb f Report.font_regular.

(** Libraries: one that raises on no call, and one that cannot load a
    font file (an empty file, say). *)
Definition reliable : Report.library :=
  {| Report.raises := fun _ _ => None; Report.output_raises := fun _ => None |}.

Definition font_parse_error : exn := ExternalError (py "fontTools") 1.

Definition unloadable_fonts : Report.library :=
  {| Report.raises := fun _ op =>
                        match op with
                        | Report.AddFont _ _ _ _ => Some font_parse_error
                        | _ => None
                        end;
     Report.output_raises := fun _ => None |}.

(** An analysis result with all nine sections, and one without Genre. *)
Definition complete_result : dict :=
  List.map (fun c => (c, py "**Fine.**")) categories.

Definition result_without_genre : dict :=
  List.filter (fun kv => negb (str_eqb (fst kv) (py "Genre"))) complete_result.

(** Remote services whose state counts the requests received: one answers
    every request, one fails on the second request. *)
Definition transport_error : exn := ExternalError (py "openai") 503.

Definition answering (w : nat) (_ : request) : nat * result str :=
  (S w, inr (py "An answer.")).

Definition failing_second (w : nat) (_ : request) : nat * result str :=
  (S w, if Nat.eqb w 1 then inl transport_error else inr (py "An answer.")).


(** The secret store with and without the API key. *)
Definition with_api_key (_ : str) : option str := Some (py "sk-sample").
Definition without_api_key (_ : str) : option str := None.

(** Uploads: a one-byte file parses to one page, a longer one to two
    pages, the empty file does not parse. *)
Definition alpha_bytes : list Byte.byte := [Byte.x41].
Definition beta_bytes : list Byte.byte := [Byte.x42; Byte.x42].

Definition open_upload (b : list Byte.byte) : result (list str) :=
  match b with
  | [] => inl parse_error
  | [_] => inr [py "ALPHA"]
  | _ :: _ :: _ => inr [py "BETA"; py " II"]
  end.

(** A new session, and a session that holds the text of Alpha. *)
Definition new_session : App.runtime nat :=
  {| App.state := {| App.current_movie := None;
                     App.screenplay_text := None |};
     App.api := {| world := 0; sent := [] |};
     App.screen := [] |}.

Definition alpha_session : App.runtime nat :=
  {| App.state := {| App.current_movie := Some (Some (py "Alpha"));
                     App.screenplay_text := Some (py "ALPHA") |};
     App.api := {| world := 0; sent := [] |};
     App.screen := [] |}.

End Samples.

(* ================================================================== *)
(** * Facts about strings and lists *)

Module PyFacts.

Lemma str_eqb_eq (a b : str) : str_eqb a b = true <-> a = b.
Proof.
  revert b; induction a as [|x a IH]; intros [|y b]; cbn [str_eqb];
    try (split; [discriminate|discriminate]); [split; reflexivity|].
  rewrite andb_true_iff, N.eqb_eq, IH.
  split; [intros [-> ->]; reflexivity|intros [= -> ->]; split; reflexivity].
Qed.

Lemma distinct_NoDup (l : list str) : distinct l = true -> NoDup l.
Proof.
  induction l as [|x l IH]; [constructor|].
  cbn [distinct]. intros H. apply andb_true_iff in H as [Hx Hl].
  constructor; [|auto].
  intros Hin. apply negb_true_iff in Hx.
  assert (E : existsb (str_eqb x) l = true); [|congruence].
  apply existsb_exists. exists x. split; [exact Hin|now apply str_eqb_eq].
Qed.

Lemma NoDup_app_disjoint (A : Type) (l1 l2 : list A) (x : A) :
  NoDup (l1 ++ l2) -> In x l1 -> In x l2 -> False.
Proof.
  induction l1 as [|a l1 IH]; cbn [app]; [intros _ []|].
  intros H [<-|H1] H2; inversion H as [|? ? Ha Hn]; subst.
  - apply Ha, in_or_app. now right.
  - auto.
Qed.

Lemma NoDup_map_injective (A B : Type) (f : A -> B) (l : list A) :
  (forall a b, f a = f b -> a = b) -> NoDup l -> NoDup (List.map f l).
Proof.
  intros Hf. induction 1 as [|x l Hx _ IH]; cbn [List.map]; constructor; auto.
  rewrite in_map_iff. intros (y & Hy & Hin). apply Hf in Hy. now subst.
Qed.

(** ** [strip] *)

Lemma lstrip_suffix (s : str) : exists p, s = p ++ lstrip s.
Proof.
  induction s as [|c s [p IH]]; [now exists []|].
  cbn [lstrip]. destruct (isspace c).
  - exists (c :: p). cbn [app]. now f_equal.
  - now exists [].
Qed.

Lemma rstrip_prefix (s : str) : exists q, s = rstrip s ++ q.
Proof.
  unfold rstrip. destruct (lstrip_suffix (rev s)) as [p Hp].
  exists (rev p). rewrite <- rev_app_distr, <- Hp. now rewrite rev_involutive.
Qed.

Lemma strip_infix (s : str) : exists p q, s = p ++ strip s ++ q.
Proof.
  unfold strip. destruct (lstrip_suffix s) as [p Hp].
  destruct (rstrip_prefix (lstrip s)) as [q Hq].
  exists p, q. now rewrite <- Hq.
Qed.

Lemma lstrip_head_ok (s : str) : head_ok (lstrip s) = true.
Proof.
  induction s as [|c s IH]; [reflexivity|].
  cbn [lstrip]. destruct (isspace c) eqn:E; [exact IH|].
  cbn [head_ok]. now rewrite E.
Qed.

Lemma lstrip_id (s : str) : head_ok s = true -> lstrip s = s.
Proof.
  destruct s as [|c s]; [reflexivity|].
  cbn [head_ok lstrip]. now destruct (isspace c).
Qed.

Lemma head_ok_prefix (p q : str) :
  head_ok (p ++ q) = true -> head_ok p = true.
Proof. now destruct p. Qed.

(** A stripped text neither starts nor ends with white space. *)
Lemma strip_head_ok (s : str) : head_ok (strip s) = true.
Proof.
  unfold strip. destruct (rstrip_prefix (lstrip s)) as [q Hq].
  apply head_ok_prefix with (q := q). rewrite <- Hq. apply lstrip_head_ok.
Qed.

Lemma strip_last_ok (s : str) : head_ok (rev (strip s)) = true.
Proof.
  unfold strip, rstrip. rewrite rev_involutive. apply lstrip_head_ok.
Qed.

Lemma strip_idempotent (s : str) : strip (strip s) = strip s.
Proof.
  unfold strip at 1. rewrite (lstrip_id _ (strip_head_ok s)).
  unfold rstrip at 1. rewrite (lstrip_id _ (strip_last_ok s)).
  apply rev_involutive.
Qed.

Lemma strip_length (s : str) : List.length (strip s) <= List.length s.
Proof.
  destruct (strip_infix s) as (p & q & H).
  rewrite H at 2. rewrite !length_app. lia.
Qed.

Lemma strip_Forall (P : char -> Prop) (s : str) :
  Forall P s -> Forall P (strip s).
Proof.
  destruct (strip_infix s) as (p & q & H). rewrite H at 1.
  intros F. apply Forall_app in F as [_ F]. now apply Forall_app in F as [F _].
Qed.

End PyFacts.
Import PyFacts.

(* ================================================================== *)
(** * Facts about the regular-expression fragment *)

Module ReFacts.

Lemma span_le_length (p : char -> bool) (s : str) : span p s <= List.length s.
Proof.
  induction s as [|c s IH]; simpl; [lia|].
  destruct (p c); simpl; lia.
Qed.

Lemma span_app_le (p : char -> bool) (s t : str) : span p s <= span p (s ++ t).
Proof.
  induction s as [|c s IH]; simpl; [lia|].
  destruct (p c); lia.
Qed.

Lemma span_skipn_span (p : char -> bool) (s : str) :
  span p (skipn (span p s) s) = 0.
Proof.
  induction s as [|c s IH]; simpl; [reflexivity|].
  destruct (p c) eqn:E; simpl; [exact IH|].
  now rewrite E.
Qed.

Lemma is_prefix_length (w s : str) :
  is_prefix w s = true -> List.length w <= List.length s.
Proof.
  revert s; induction w as [|x w IH]; intros [|y s]; simpl; try lia; try discriminate.
  intros H; apply andb_true_iff in H as [_ H]. apply IH in H. lia.
Qed.

(** ** The first match, pattern by pattern *)

Lemma match_len_lit (w s : str) :
  match_len (Lit w) s = if is_prefix w s then Some (List.length w) else None.
Proof. unfold match_len. cbn [all_matches]. now destruct (is_prefix w s). Qed.

Lemma match_len_alt (r1 r2 : regex) (s : str) :
  match_len (Alt r1 r2) s =
  match match_len r1 s with
  | Some n => Some n
  | None => match_len r2 s
  end.
Proof.
  unfold match_len. cbn [all_matches]. now destruct (all_matches r1 s).
Qed.

(** The longest repetition is tried first. *)
Lemma all_matches_rep (lo : nat) (cls : char -> bool) (s : str) :
  all_matches (Rep lo cls) s =
  if lo <=? span cls s
  then span cls s :: rev (seq lo (span cls s - lo))
  else [].
Proof.
  cbn [all_matches]. destruct (lo <=? span cls s) eqn:E.
  - apply Nat.leb_le in E.
    replace (S (span cls s) - lo) with (S (span cls s - lo)) by lia.
    rewrite seq_S, rev_app_distr. cbn [rev app]. f_equal. lia.
  - apply Nat.leb_gt in E.
    now replace (S (span cls s) - lo) with 0 by lia.
Qed.

Lemma match_len_rep (lo : nat) (cls : char -> bool) (s : str) :
  match_len (Rep lo cls) s =
  if lo <=? span cls s then Some (span cls s) else None.
Proof.
  unfold match_len. rewrite all_matches_rep.
  now destruct (lo <=? span cls s).
Qed.

(** In a sequence, when the second part matches after the first match of
    the first part, nothing is given back. *)
Lemma match_len_seq (r1 r2 : regex) (s : str) (n k : nat) :
  match_len r1 s = Some n -> match_len r2 (skipn n s) = Some k ->
  match_len (Seq r1 r2) s = Some (n + k).
Proof.
  unfold match_len. cbn [all_matches].
  destruct (all_matches r1 s) as [|n' l1]; [discriminate|].
  intros [= ->]. cbn [flat_map].
  destruct (all_matches r2 (skipn n s)) as [|k' l2]; [discriminate|].
  now intros [= ->].
Qed.

Lemma match_len_seq_none (r1 r2 : regex) (s : str) :
  match_len r1 s = None -> match_len (Seq r1 r2) s = None.
Proof.
  unfold match_len. cbn [all_matches].
  now destruct (all_matches r1 s).
Qed.

(** No match runs past the end of the string. *)
Lemma all_matches_le (r : regex) :
  forall s, Forall (fun n => n <= List.length s) (all_matches r s).
Proof.
  induction r as [w|r1 IH1 r2 IH2|r1 IH1 r2 IH2|lo cls]; intros s;
    cbn [all_matches].
  - destruct (is_prefix w s) eqn:E; constructor; [|constructor].
    now apply is_prefix_length.
  - apply Forall_app. split; auto.
  - apply Forall_flat_map. eapply Forall_impl; [|apply IH1].
    intros n Hn. cbn beta in Hn.
    apply Forall_map. eapply Forall_impl; [|apply IH2].
    cbn beta. intros k Hk. rewrite length_skipn in Hk. lia.
  - apply Forall_rev, Forall_forall. intros n Hn. apply in_seq in Hn.
    pose proof (span_le_length cls s). lia.
Qed.

Lemma match_len_le (r : regex) (s : str) (n : nat) :
  match_len r s = Some n -> n <= List.length s.
Proof.
  unfold match_len. pose proof (all_matches_le r s) as H.
  destruct (all_matches r s) as [|m l]; [discriminate|].
  intros [= <-]. now inversion H.
Qed.

Section SubFacts.
Variable r : regex.
Variable repl : str.

Lemma sub_from_skipn (s : str) :
  forall k, sub_from r repl k s = sub_from r repl 0 (skipn k s).
Proof.
  induction s as [|c s IH]; intros [|k]; try reflexivity.
  simpl sub_from at 1. simpl skipn. apply IH.
Qed.

(** Where the pattern matches nowhere, [re.sub] returns its argument. *)
Lemma sub_no_match (s : str) : has_match r s = false -> Re.sub r repl s = s.
Proof.
  unfold Re.sub. induction s as [|c s IH]; [reflexivity|].
  cbn [has_match sub_from]. intros H.
  apply orb_false_iff in H as [Hm Hs]. unfold matches_at in Hm.
  destruct (match_len r (c :: s)) as [[|k]|]; try discriminate;
    now rewrite IH.
Qed.

(** A property of single characters that holds of the replacement and of
    the input holds of the output. *)
Lemma sub_from_Forall (P : char -> Prop) :
  Forall P repl -> forall s k, Forall P s -> Forall P (sub_from r repl k s).
Proof.
  intros Hr. induction s as [|c s IH]; intros k Hs; [constructor|].
  inversion Hs as [|? ? Hc Hs']; subst.
  destruct k as [|k]; cbn [sub_from]; [|now apply IH].
  destruct (match_len r (c :: s)) as [[|j]|].
  - constructor; auto.
  - apply Forall_app; split; auto.
  - constructor; auto.
Qed.

(** Characters at which the pattern always matches do not survive. *)
Lemma sub_from_consumed (P : char -> Prop) :
  Forall P repl ->
  (forall c t, matches_at r (c :: t) = false -> P c) ->
  forall s k, Forall P (sub_from r repl k s).
Proof.
  intros Hr Hm. induction s as [|c s IH]; intros k; [constructor|].
  destruct k as [|k]; cbn [sub_from]; [|now apply IH].
  pose proof (Hm c s) as Hc. unfold matches_at in Hc.
  destruct (match_len r (c :: s)) as [[|j]|].
  - constructor; auto.
  - apply Forall_app; split; auto.
  - constructor; auto.
Qed.

Hypothesis repl_short :
  forall t n, match_len r t = Some (S n) -> List.length repl <= S n.

Lemma sub_from_length (s : str) :
  forall k, List.length (sub_from r repl k s) <= List.length s - k.
Proof.
  induction s as [|c s IH]; intros k; [simpl; lia|].
  destruct k as [|k]; cbn [sub_from].
  - destruct (match_len r (c :: s)) as [[|j]|] eqn:E.
    + specialize (IH 0). simpl. lia.
    + pose proof (match_len_le _ _ E) as Hle. pose proof (repl_short _ E) as Hr.
      specialize (IH j). rewrite length_app. simpl in *. lia.
    + specialize (IH 0). simpl. lia.
  - specialize (IH k). simpl. lia.
Qed.

Lemma sub_length (s : str) : List.length (Re.sub r repl s) <= List.length s.
Proof. unfold Re.sub. pose proof (sub_from_length s 0). lia. Qed.

End SubFacts.

Section SubShrinks.
Variable r : regex.
Variable repl : str.
Hypothesis repl_shorter :
  forall t n, match_len r t = Some (S n) -> List.length repl < S n.

(** A match that is replaced by something shorter makes the text
    shorter. *)
Lemma sub_has_match_length (s : str) :
  has_match r s = true -> List.length (Re.sub r repl s) < List.length s.
Proof.
  unfold Re.sub. induction s as [|c s IH]; [discriminate|].
  cbn [has_match sub_from]. unfold matches_at. intros H.
  destruct (match_len r (c :: s)) as [[|j]|] eqn:E.
  - simpl in H. apply IH in H. simpl. lia.
  - pose proof (match_len_le _ _ E) as Hle. pose proof (repl_shorter _ E) as Hr.
    assert (Hs : forall t n, match_len r t = Some (S n) ->
                             List.length repl <= S n)
      by (intros t n Ht; apply Nat.lt_le_incl; eauto).
    pose proof (@sub_from_length r repl Hs s j). rewrite length_app. simpl in *. lia.
  - simpl in H. apply IH in H. simpl. lia.
Qed.

End SubShrinks.

End ReFacts.

Module CleanerFacts.
Import ReFacts.

Lemma py_stars : py "**" = [c_star; c_star].
Proof. reflexivity. Qed.

Lemma py_unders : py "__" = [c_under; c_under].
Proof. reflexivity. Qed.

Lemma py_tick : py "`" = [c_tick].
Proof. reflexivity. Qed.

(** ** The four patterns: what they match at the start of a string *)

Lemma match_len_bold (s : str) :
  match_len re_bold s =
  if is_prefix (py "**") s || is_prefix (py "__") s then Some 2 else None.
Proof.
  unfold re_bold. rewrite match_len_alt, !match_len_lit.
  destruct (is_prefix (py "**") s); [reflexivity|].
  destruct (is_prefix (py "__") s); reflexivity.
Qed.

Lemma match_len_heading (s : str) :
  match_len re_heading s =
  if 1 <=? span is_hash s
  then Some (span is_hash s + span isspace (skipn (span is_hash s) s))
  else None.
Proof.
  unfold re_heading. destruct (1 <=? span is_hash s) eqn:E.
  - apply match_len_seq; rewrite match_len_rep; [now rewrite E|reflexivity].
  - apply match_len_seq_none. rewrite match_len_rep. now rewrite E.
Qed.

Lemma match_len_backtick (s : str) :
  match_len re_backtick s = if is_prefix (py "`") s then Some 1 else None.
Proof. unfold re_backtick. now rewrite match_len_lit. Qed.

Lemma match_len_newlines (s : str) :
  match_len re_newlines s =
  if 3 <=? span is_nl s then Some (span is_nl s) else None.
Proof. unfold re_newlines. apply match_len_rep. Qed.

(** None of the four patterns matches the empty string. *)
Lemma patterns_match_nonempty (r : regex) (s : str) :
  In r [re_bold; re_heading; re_backtick; re_newlines] ->
  match_len r s <> Some 0.
Proof.
  intros [<-|[<-|[<-|[<-|[]]]]].
  - rewrite match_len_bold. now destruct (_ || _).
  - rewrite match_len_heading. destruct (1 <=? span is_hash s) eqn:E;
      [|discriminate].
    apply Nat.leb_le in E. intros [= H]. lia.
  - rewrite match_len_backtick. now destruct (is_prefix _ s).
  - rewrite match_len_newlines. destruct (3 <=? span is_nl s) eqn:E;
      [|discriminate].
    apply Nat.leb_le in E. intros [= H]. lia.
Qed.

Lemma bold_matches_at (s : str) :
  matches_at re_bold s = is_prefix (py "**") s || is_prefix (py "__") s.
Proof.
  unfold matches_at. rewrite match_len_bold. now destruct (_ || _).
Qed.

Lemma heading_matches_at (c : char) (t : str) :
  matches_at re_heading (c :: t) = is_hash c.
Proof.
  unfold matches_at. rewrite match_len_heading. cbn [span].
  destruct (is_hash c); reflexivity.
Qed.

Lemma backtick_matches_at (c : char) (t : str) :
  matches_at re_backtick (c :: t) = is_tick c.
Proof.
  unfold matches_at. rewrite match_len_backtick, py_tick.
  cbn [is_prefix]. unfold is_tick.
  rewrite N.eqb_sym, andb_true_r. now destruct (N.eqb c c_tick).
Qed.

Lemma newlines_matches_at (s : str) :
  matches_at re_newlines s = (3 <=? span is_nl s).
Proof.
  unfold matches_at. rewrite match_len_newlines.
  destruct (3 <=? span is_nl s) eqn:E; [|reflexivity].
  apply Nat.leb_le in E. destruct (span is_nl s); [lia|reflexivity].
Qed.

Lemma newlines_match_len (s : str) (n : nat) :
  match_len re_newlines s = Some n -> n = span is_nl s /\ 3 <= n.
Proof.
  rewrite match_len_newlines.
  destruct (3 <=? span is_nl s) eqn:E; [|discriminate].
  apply Nat.leb_le in E. now intros [= <-].
Qed.

(** ** Which characters are left after each substitution *)

Lemma heading_removes_hash (s : str) : Forall no_hash (Re.sub re_heading [] s).
Proof.
  apply sub_from_consumed; [constructor|].
  intros c t. now rewrite heading_matches_at.
Qed.

Lemma backtick_removes_tick (s : str) :
  Forall no_tick (Re.sub re_backtick [] s).
Proof.
  apply sub_from_consumed; [constructor|].
  intros c t. now rewrite backtick_matches_at.
Qed.

Lemma no_hash_no_heading (s : str) :
  Forall no_hash s -> has_match re_heading s = false.
Proof.
  induction 1 as [|c s Hc _ IH]; [reflexivity|].
  cbn [has_match]. now rewrite heading_matches_at, Hc, IH.
Qed.

Lemma no_tick_no_backtick (s : str) :
  Forall no_tick s -> has_match re_backtick s = false.
Proof.
  induction 1 as [|c s Hc _ IH]; [reflexivity|].
  cbn [has_match]. now rewrite backtick_matches_at, Hc, IH.
Qed.

Lemma has_match_bold (s : str) : has_match re_bold s = has_bold_marker s.
Proof.
  unfold has_bold_marker. induction s as [|c s IH]; [reflexivity|].
  cbn [has_match occurs]. rewrite bold_matches_at, IH.
  destruct (is_prefix (py "**") (c :: s)), (is_prefix (py "__") (c :: s)),
    (occurs (py "**") s), (occurs (py "__") s); reflexivity.
Qed.

(** ** Collapsing line breaks *)

Lemma collapse_cons (c : char) (s : str) :
  Re.sub re_newlines [c_nl; c_nl] (c :: s) =
  if 3 <=? span is_nl (c :: s)
  then [c_nl; c_nl]
       ++ Re.sub re_newlines [c_nl; c_nl]
            (skipn (span is_nl (c :: s)) (c :: s))
  else c :: Re.sub re_newlines [c_nl; c_nl] s.
Proof.
  unfold Re.sub at 1. cbn [sub_from].
  destruct (match_len re_newlines (c :: s)) as [n|] eqn:E.
  - apply newlines_match_len in E as [-> H3].
    apply Nat.leb_le in H3. rewrite H3.
    destruct (span is_nl (c :: s)) as [|k] eqn:Ek; [discriminate|].
    rewrite sub_from_skipn. reflexivity.
  - rewrite match_len_newlines in E.
    destruct (3 <=? span is_nl (c :: s)); [discriminate|reflexivity].
Qed.

(** A short run of line feeds at the start is copied as it is. *)
Lemma collapse_span_short (s : str) :
  span is_nl s < 3 ->
  span is_nl (Re.sub re_newlines [c_nl; c_nl] s) = span is_nl s.
Proof.
  induction s as [|c s IH]; [reflexivity|].
  intros H. rewrite collapse_cons.
  destruct (3 <=? span is_nl (c :: s)) eqn:E; [apply Nat.leb_le in E; lia|].
  cbn [span] in *. destruct (is_nl c); [|reflexivity].
  rewrite IH; [reflexivity|lia].
Qed.

(** After the substitution no three line feeds stand in a row. *)
Lemma collapse_no_run (s : str) :
  has_match re_newlines (Re.sub re_newlines [c_nl; c_nl] s) = false.
Proof.
  remember (List.length s) as n eqn:Hn.
  revert s Hn. induction n as [n IH] using lt_wf_ind. intros s Hn.
  destruct s as [|c s]; [reflexivity|].
  rewrite collapse_cons.
  destruct (3 <=? span is_nl (c :: s)) eqn:E.
  - remember (skipn (span is_nl (c :: s)) (c :: s)) as t eqn:Et.
    assert (Ht : List.length t < n).
    { subst t n. rewrite length_skipn. apply Nat.leb_le in E.
      cbn [List.length]. lia. }
    assert (H0 : span is_nl (Re.sub re_newlines [c_nl; c_nl] t) = 0).
    { rewrite collapse_span_short; subst t; rewrite span_skipn_span; lia. }
    cbn [app has_match]. rewrite !newlines_matches_at.
    rewrite (IH _ Ht t eq_refl).
    cbn [span]. change (is_nl c_nl) with true. cbn iota. rewrite H0.
    reflexivity.
  - assert (Hs : Re.sub re_newlines [c_nl; c_nl] (c :: s)
                 = c :: Re.sub re_newlines [c_nl; c_nl] s)
      by (rewrite collapse_cons, E; reflexivity).
    pose proof (collapse_span_short (c :: s)) as Hsp.
    rewrite Hs in Hsp.
    cbn [has_match]. rewrite newlines_matches_at.
    rewrite Hsp by (apply Nat.leb_gt; exact E).
    rewrite E. apply (IH (List.length s)); [subst n; simpl; lia|reflexivity].
Qed.

(** The same holds of every prefix and suffix of such a text. *)
Lemma no_run_prefix (p q : str) :
  has_match re_newlines (p ++ q) = false -> has_match re_newlines p = false.
Proof.
  induction p as [|c p IH]; [reflexivity|].
  cbn [app has_match]. rewrite !newlines_matches_at.
  intros H. apply orb_false_iff in H as [H1 H2].
  rewrite (IH H2), orb_false_r.
  apply Nat.leb_gt in H1. apply Nat.leb_gt.
  pose proof (span_app_le is_nl (c :: p) q). cbn [app] in *. lia.
Qed.

Lemma has_match_suffix (r : regex) (p q : str) :
  has_match r (p ++ q) = false -> has_match r q = false.
Proof.
  induction p as [|c p IH]; [trivial|].
  cbn [app has_match]. intros H. apply orb_false_iff in H as [_ H]. auto.
Qed.

Lemma strip_no_run (s : str) :
  has_match re_newlines s = false -> has_match re_newlines (strip s) = false.
Proof.
  destruct (strip_infix s) as (p & q & H). rewrite H at 1.
  intros F. apply has_match_suffix in F. now apply no_run_prefix in F.
Qed.

(** ** What [clean_markdown] returns *)

Lemma clean_no_hash (s : str) : Forall no_hash (clean_markdown s).
Proof.
  unfold clean_markdown. apply strip_Forall.
  apply sub_from_Forall; [repeat constructor|].
  apply sub_from_Forall; [constructor|].
  apply heading_removes_hash.
Qed.

Lemma clean_no_tick (s : str) : Forall no_tick (clean_markdown s).
Proof.
  unfold clean_markdown. apply strip_Forall.
  apply sub_from_Forall; [repeat constructor|].
  apply backtick_removes_tick.
Qed.

Lemma clean_no_run (s : str) :
  has_match re_newlines (clean_markdown s) = false.
Proof. unfold clean_markdown. apply strip_no_run, collapse_no_run. Qed.

Lemma clean_stripped (s : str) : strip (clean_markdown s) = clean_markdown s.
Proof. unfold clean_markdown. apply strip_idempotent. Qed.

(** A cleaned text without bold marker is left as it is by a second
    pass: no pattern matches in it and it is stripped already. *)
Lemma clean_fixed (s : str) :
  has_bold_marker (clean_markdown s) = false ->
  clean_markdown (clean_markdown s) = clean_markdown s.
Proof.
  intros Hb. unfold clean_markdown at 1.
  rewrite (sub_no_match re_bold) by (now rewrite has_match_bold).
  rewrite (sub_no_match re_heading)
    by apply no_hash_no_heading, clean_no_hash.
  rewrite (sub_no_match re_backtick)
    by apply no_tick_no_backtick, clean_no_tick.
  rewrite (sub_no_match re_newlines) by apply clean_no_run.
  apply clean_stripped.
Qed.

(** A text with a bold marker gets shorter. *)
Lemma clean_shrinks (t : str) :
  has_bold_marker t = true ->
  List.length (clean_markdown t) < List.length t.
Proof.
  intros Hb. unfold clean_markdown.
  eapply Nat.le_lt_trans; [apply strip_length|].
  eapply Nat.le_lt_trans.
  { apply sub_length. intros u n E.
    apply newlines_match_len in E as [_ E]. simpl. lia. }
  eapply Nat.le_lt_trans; [apply sub_length; intros; simpl; lia|].
  eapply Nat.le_lt_trans; [apply sub_length; intros; simpl; lia|].
  apply sub_has_match_length; [intros; simpl; lia|].
  now rewrite has_match_bold.
Qed.

(** A property of characters that the line feed has is kept by
    [clean_markdown]. *)
Lemma clean_Forall (P : char -> Prop) (s : str) :
  P c_nl -> Forall P s -> Forall P (clean_markdown s).
Proof.
  intros Hn Hs. unfold clean_markdown. apply strip_Forall.
  apply sub_from_Forall; [repeat constructor; exact Hn|].
  apply sub_from_Forall; [constructor|].
  apply sub_from_Forall; [constructor|].
  apply sub_from_Forall; [constructor|exact Hs].
Qed.

(** [clean_markdown] never makes a text longer. *)
Lemma clean_length (s : str) :
  List.length (clean_markdown s) <= List.length s.
Proof.
  unfold clean_markdown.
  eapply Nat.le_trans; [apply strip_length|].
  eapply Nat.le_trans.
  { apply sub_length. intros u n E.
    apply newlines_match_len in E as [_ E]. simpl. lia. }
  eapply Nat.le_trans; [apply sub_length; intros; simpl; lia|].
  eapply Nat.le_trans; [apply sub_length; intros; simpl; lia|].
  apply sub_length; intros; simpl; lia.
Qed.

(** Three line feeds in a row are a match of the pattern. *)
Lemma run_has_match (pre post : str) :
  has_match re_newlines (pre ++ repeat c_nl 3 ++ post) = true.
Proof.
  induction pre as [|c pre IH].
  - cbn [app repeat has_match]. rewrite newlines_matches_at. reflexivity.
  - cbn [app has_match]. rewrite IH. apply orb_true_r.
Qed.

(** A string that starts with a character the text does not have does not
    occur in it. *)
Lemma occurs_absent (c : char) (w s : str) :
  ~ In c s -> occurs (c :: w) s = false.
Proof.
  induction s as [|x s IH]; [reflexivity|].
  intros H. cbn [occurs is_prefix].
  rewrite IH by (intros Hin; apply H; now right).
  destruct (N.eqb_spec c x) as [->|_]; [|reflexivity].
  exfalso. apply H. now left.
Qed.

End CleanerFacts.
Import CleanerFacts.

Module ReportFacts.
Import Report.

Lemma bind_add_page (A : Type) (k : M heap A) (h : heap) :
  (add_page ;;; k) h = k {| pdf := pdf h ++ [AddPage]; buffers := buffers h |}.
Proof. reflexivity. Qed.

Section WithLibrary.
Variable isfile : str -> bool.
Variable fpdf : library.

Lemma bind_call (A : Type) (op : pdf_op) (k : M heap A) (h : heap) :
  (call fpdf op ;;; k) h =
  match raises fpdf (pdf h) op with
  | Some e => (h, inl e)
  | None => k {| pdf := pdf h ++ [op]; buffers := buffers h |}
  end.
Proof. unfold bind, call. now destruct (raises fpdf (pdf h) op). Qed.

Lemma first_error_app (a b : list pdf_op) :
  forall done,
    first_error fpdf done (a ++ b) =
    match first_error fpdf done a with
    | Some e => Some e
    | None => first_error fpdf (done ++ a) b
    end.
Proof.
  induction a as [|op a IH]; intros done; cbn [app first_error].
  - now rewrite app_nil_r.
  - destruct (raises fpdf done op); [reflexivity|].
    rewrite IH, <- app_assoc. reflexivity.
Qed.

(** The loop over the entries when the library accepts its calls. *)
Lemma sections_loop (data : dict) :
  forall h,
    first_error fpdf (pdf h) (flat_map section_ops data) = None ->
    for_each (items data)
      (fun _ '(section, content) =>
         call fpdf (SetFont (py "DejaVu") (py "B") 14) ;;;
         call fpdf (Cell 0 10 section true (py "")) ;;;
         call fpdf (Ln 2) ;;;
         call fpdf (SetFont (py "DejaVu") (py "") 12) ;;;
         let cleaned_content := clean_markdown content in
         call fpdf (MultiCell 0 8 cleaned_content) ;;;
         call fpdf (Ln 10)) tt h
    = ({| pdf := pdf h ++ flat_map section_ops data; buffers := buffers h |},
       inr tt).
Proof.
  unfold items. induction data as [|[section content] data IH]; intros h H.
  - cbn [for_each flat_map]. rewrite app_nil_r. now destruct h.
  - cbn [flat_map section_ops fst snd app first_error] in H.
    destruct (raises fpdf (pdf h) _) eqn:E1 in H; [discriminate|].
    destruct (raises fpdf (pdf h ++ _) _) eqn:E2 in H; [discriminate|].
    destruct (raises fpdf ((pdf h ++ _) ++ _) _) eqn:E3 in H; [discriminate|].
    destruct (raises fpdf (((pdf h ++ _) ++ _) ++ _) _) eqn:E4 in H;
      [discriminate|].
    destruct (raises fpdf ((((pdf h ++ _) ++ _) ++ _) ++ _) _) eqn:E5 in H;
      [discriminate|].
    destruct (raises fpdf (((((pdf h ++ _) ++ _) ++ _) ++ _) ++ _) _)
      eqn:E6 in H; [discriminate|].
    cbn [for_each]. unfold bind at 1.
    rewrite bind_call, E1, bind_call. cbn [pdf buffers].
    rewrite E2, bind_call. cbn [pdf buffers].
    rewrite E3, bind_call. cbn [pdf buffers].
    rewrite E4, bind_call. cbn [pdf buffers].
    rewrite E5. unfold call at 1. cbn [pdf buffers]. rewrite E6.
    rewrite IH by exact H. cbn [pdf buffers].
    cbn [flat_map section_ops fst snd]. rewrite <- !app_assoc. reflexivity.
Qed.

(** The loop when the library raises on one of its calls. *)
Lemma sections_loop_fails (data : dict) (e : exn) :
  forall h,
    first_error fpdf (pdf h) (flat_map section_ops data) = Some e ->
    snd (for_each (items data)
           (fun _ '(section, content) =>
              call fpdf (SetFont (py "DejaVu") (py "B") 14) ;;;
              call fpdf (Cell 0 10 section true (py "")) ;;;
              call fpdf (Ln 2) ;;;
              call fpdf (SetFont (py "DejaVu") (py "") 12) ;;;
              let cleaned_content := clean_markdown content in
              call fpdf (MultiCell 0 8 cleaned_content) ;;;
              call fpdf (Ln 10)) tt h)
    = inl e.
Proof.
  unfold items. induction data as [|[section content] data IH]; intros h H.
  - discriminate.
  - cbn [flat_map section_ops fst snd app first_error] in H.
    cbn [for_each]. unfold bind at 1. rewrite bind_call.
    destruct (raises fpdf (pdf h) _) as [e1|]; [now injection H as ->|].
    rewrite bind_call. cbn [pdf buffers].
    destruct (raises fpdf (pdf h ++ _) _) as [e2|]; [now injection H as ->|].
    rewrite bind_call. cbn [pdf buffers].
    destruct (raises fpdf ((pdf h ++ _) ++ _) _) as [e3|];
      [now injection H as ->|].
    rewrite bind_call. cbn [pdf buffers].
    destruct (raises fpdf (((pdf h ++ _) ++ _) ++ _) _) as [e4|];
      [now injection H as ->|].
    rewrite bind_call. cbn [pdf buffers].
    destruct (raises fpdf ((((pdf h ++ _) ++ _) ++ _) ++ _) _) as [e5|];
      [now injection H as ->|].
    unfold call at 1. cbn [pdf buffers].
    destruct (raises fpdf (((((pdf h ++ _) ++ _) ++ _) ++ _) ++ _) _)
      as [e6|]; [now injection H as ->|].
    apply IH. exact H.
Qed.

(** What [create_pdf_report] returns when both fonts are there: the first
    exception of the library, or the document of all the calls. *)
Lemma report_outcome (data : dict) :
  isfile font_regular = true -> isfile font_bold = true ->
  snd (create_pdf_report isfile fpdf data) =
  match first_error fpdf [AddPage] (tl (report_ops data)) with
  | Some e => inl e
  | None =>
      match output_raises fpdf (report_ops data) with
      | Some e => inl e
      | None => inr {| document := report_ops data; rewound := true |}
      end
  end.
Proof.
  intros Hr Hb. unfold create_pdf_report, create_pdf_report_body.
  rewrite bind_add_page, Hr, Hb. cbn [negb orb FPDF pdf buffers app].
  unfold report_ops, header_ops, items. cbn [app tl first_error].
  rewrite bind_call. cbn [pdf buffers app].
  destruct (raises fpdf _ _); [reflexivity|].
  rewrite bind_call. cbn [pdf buffers app].
  destruct (raises fpdf _ _); [reflexivity|].
  rewrite bind_call. cbn [pdf buffers app].
  destruct (raises fpdf _ _); [reflexivity|].
  rewrite bind_call. cbn [pdf buffers app].
  destruct (raises fpdf _ _); [reflexivity|].
  rewrite bind_call. cbn [pdf buffers app].
  destruct (raises fpdf _ _); [reflexivity|].
  unfold bind at 1.
  destruct (first_error fpdf _ (flat_map section_ops data)) as [e|] eqn:E.
  - pose proof (sections_loop_fails data
                  {| pdf := _; buffers := 0 |} E) as F.
    unfold items in F. destruct (for_each _ _ _ _) as [s' [e'|[]]];
      cbn [snd] in F; [injection F as ->; reflexivity|discriminate].
  - pose proof (sections_loop data {| pdf := _; buffers := 0 |} E) as S.
    unfold items in S. rewrite S.
    cbn [pdf buffers app]. unfold bind, output_to_new_buffer.
    cbn [pdf buffers].
    destruct (output_raises fpdf _); reflexivity.
Qed.

Lemma report_accepted (data : dict) :
  isfile font_regular = true -> isfile font_bold = true ->
  accepts fpdf data = true ->
  snd (create_pdf_report isfile fpdf data)
  = inr {| document := report_ops data; rewound := true |}.
Proof.
  intros Hr Hb H. rewrite (report_outcome data Hr Hb). unfold accepts in H.
  destruct (first_error fpdf _ _); [discriminate|].
  destruct (output_raises fpdf _); [discriminate|reflexivity].
Qed.

Lemma report_without_fonts (data : dict) :
  isfile font_regular = false \/ isfile font_bold = false ->
  create_pdf_report isfile fpdf data =
  ({| pdf := [AddPage]; buffers := 0 |}, inl (FileNotFoundError font_error)).
Proof.
  intros H. unfold create_pdf_report, create_pdf_report_body.
  rewrite bind_add_page.
  assert (E : negb (isfile font_regular) || negb (isfile font_bold) = true).
  { destruct H as [-> | ->]; [reflexivity|apply orb_true_r]. }
  rewrite E. reflexivity.
Qed.

(** A stream that is returned holds the document of all the calls. *)
Lemma report_returned (data : dict) (buffer : BytesIO) :
  snd (create_pdf_report isfile fpdf data) = inr buffer ->
  buffer = {| document := report_ops data; rewound := true |}.
Proof.
  destruct (isfile font_regular) eqn:Hr;
    [|rewrite report_without_fonts by (now left); discriminate].
  destruct (isfile font_bold) eqn:Hb;
    [|rewrite report_without_fonts by (now right); discriminate].
  rewrite (report_outcome data Hr Hb).
  destruct (first_error fpdf _ _); [discriminate|].
  destruct (output_raises fpdf _); [discriminate|]. now intros [= <-].
Qed.

End WithLibrary.

Lemma reliable_accepts (data : dict) : accepts Samples.reliable data = true.
Proof.
  unfold accepts.
  assert (H : forall todo done, first_error Samples.reliable done todo = None).
  { induction todo as [|op todo IH]; intros done; [reflexivity|apply IH]. }
  now rewrite H.
Qed.

Lemma cell_texts_sections (data : dict) :
  cell_texts (flat_map section_ops data) = keys data.
Proof.
  induction data as [|[k v] data IH]; [reflexivity|].
  cbn [flat_map section_ops app cell_texts fst snd keys List.map].
  now rewrite IH.
Qed.

Lemma multi_cell_texts_sections (data : dict) :
  multi_cell_texts (flat_map section_ops data)
  = List.map (fun entry => clean_markdown (snd entry)) data.
Proof.
  induction data as [|[k v] data IH]; [reflexivity|].
  cbn [flat_map section_ops app multi_cell_texts fst snd List.map].
  now rewrite IH.
Qed.

Lemma cell_texts_report (data : dict) :
  cell_texts (report_ops data) = report_title :: keys data.
Proof.
  unfold report_ops, header_ops, items. cbn [app cell_texts].
  now rewrite cell_texts_sections.
Qed.

Lemma multi_cell_texts_report (data : dict) :
  multi_cell_texts (report_ops data)
  = List.map (fun entry => clean_markdown (snd entry)) data.
Proof.
  unfold report_ops, header_ops, items. cbn [app multi_cell_texts].
  apply multi_cell_texts_sections.
Qed.

Lemma registered_fonts_report (data : dict) :
  registered_fonts (report_ops data) = [font_regular; font_bold].
Proof.
  unfold report_ops, header_ops, items. cbn [app registered_fonts].
  do 2 f_equal. induction data as [|[k v] data IH]; [reflexivity|exact IH].
Qed.

End ReportFacts.

Module OrchestratorFacts.
Import Orchestrator.

Lemma prompts_keys (text : str) : keys (prompts text) = categories.
Proof. reflexivity. Qed.

Lemma prompts_values (text : str) :
  List.map snd (prompts text)
  = List.map (fun instr => instr ++ screenplay_open ++ text ++ dq3)
      instructions.
Proof. reflexivity. Qed.

Section Remote.
Variable World : Type.
Variable remote : World -> request -> World * result str.

Lemma get_all_unfold (text : str) :
  get_all_analyses_single remote text
  = for_each (prompts text) (loop_body remote) [].
Proof. reflexivity. Qed.

Lemma loop_step (results : dict) (name prompt : str) (w : World)
  (tr : list request) :
  loop_body remote results (name, prompt) {| world := w; sent := tr |} =
  let (w1, r) := remote w (batch_request prompt) in
  ({| world := w1; sent := tr ++ [batch_request prompt] |},
   match r with
   | inl e => inl e
   | inr a => inr (dict_set results name a)
   end).
Proof.
  unfold loop_body, bind, call_openai_single, batch_request. cbn [world sent].
  destruct (remote w _) as [w1 [e|a]]; reflexivity.
Qed.

(** While the service answers, the loop goes on: it sends the requests in
    order and stores each answer under its section name. *)
Lemma loop_answered (ps : list (str * str)) :
  forall (acc : dict) (w w' : World) (tr : list request) (resps : list str),
    serve remote w (requests ps) = (w', List.map inr resps) ->
    for_each ps (loop_body remote) acc {| world := w; sent := tr |} =
    ({| world := w'; sent := tr ++ requests ps |},
     inr (fold_left (fun d kv => dict_set d (fst kv) (snd kv))
            (combine (List.map fst ps) resps) acc)).
Proof.
  induction ps as [|[name prompt] ps IH]; intros acc w w' tr resps.
  - cbn [requests List.map serve]. intros [= <- H].
    destruct resps; [|discriminate]. cbn. now rewrite app_nil_r.
  - cbn [requests List.map serve snd].
    destruct (remote w (batch_request prompt)) as [w1 r] eqn:E1.
    destruct (serve remote w1 _) as [w2 rs] eqn:E2.
    intros [= <- H]. destruct resps as [|a resps]; [discriminate|].
    cbn [List.map] in H. injection H as -> ->.
    cbn [for_each]. unfold bind at 1. rewrite loop_step, E1.
    rewrite (IH _ _ _ _ _ E2). cbn [fst combine fold_left snd].
    rewrite <- app_assoc. reflexivity.
Qed.

(** The first call that fails ends the loop with that exception. *)
Lemma loop_failed (pre post : list (str * str)) (name prompt : str) :
  forall (acc : dict) (w w1 w2 : World) (tr : list request)
         (resps : list str) (e : exn),
    serve remote w (requests pre) = (w1, List.map inr resps) ->
    remote w1 (batch_request prompt) = (w2, inl e) ->
    for_each (pre ++ (name, prompt) :: post) (loop_body remote) acc
      {| world := w; sent := tr |} =
    ({| world := w2; sent := tr ++ requests pre ++ [batch_request prompt] |},
     inl e).
Proof.
  induction pre as [|[n0 p0] pre IH]; intros acc w w1 w2 tr resps e.
  - cbn [requests List.map serve app]. intros [= <- _] E.
    cbn [for_each]. unfold bind. now rewrite loop_step, E.
  - cbn [requests List.map serve snd app].
    destruct (remote w (batch_request p0)) as [w0 r] eqn:E0.
    destruct (serve remote w0 _) as [w3 rs] eqn:E3.
    intros [= <- H] E. destruct resps as [|a resps]; [discriminate|].
    cbn [List.map] in H. injection H as -> ->.
    cbn [for_each]. unfold bind at 1. rewrite loop_step, E0.
    rewrite (IH _ _ _ _ _ _ _ E3 E). rewrite <- app_assoc. reflexivity.
Qed.

End Remote.

(** No two of the nine requests are the same, whatever the text. *)
Lemma requests_NoDup (text : str) : NoDup (requests (prompts text)).
Proof.
  unfold requests.
  rewrite <- (map_map snd batch_request), prompts_values, map_map.
  apply NoDup_map_injective.
  - intros a b H. apply (f_equal user_content) in H. cbn in H.
    now apply app_inv_tail in H.
  - apply distinct_NoDup. vm_compute. reflexivity.
Qed.

Lemma keys_combine (ks vs : list str) :
  List.length vs = List.length ks -> keys (combine ks vs) = ks.
Proof.
  revert vs. induction ks as [|k ks IH]; intros [|v vs]; try discriminate;
    [reflexivity|].
  intros [= H]. unfold keys in *. cbn [combine List.map fst].
  now rewrite IH.
Qed.

Lemma requests_app (a b : list (str * str)) :
  requests (a ++ b) = requests a ++ requests b.
Proof. apply map_app. Qed.

Section Answers.
Variable World : Type.
Variable remote : World -> request -> World * result str.

Lemma serve_length (reqs : list request) :
  forall w w' outs,
    serve remote w reqs = (w', outs) -> List.length outs = List.length reqs.
Proof.
  induction reqs as [|q reqs IH]; intros w w' outs; cbn [serve].
  - now intros [= _ <-].
  - destruct (remote w q) as [w1 r]. destruct (serve remote w1 reqs) as [w2 rs] eqn:E.
    intros [= _ <-]. cbn [List.length]. f_equal. eauto.
Qed.

(** When the service answers the nine requests, the function returns the
    answers under the category names, in the fixed order. *)
Lemma get_all_answered (text : str) (w w' : World) (tr : list request)
  (resps : list str) :
  serve remote w (requests (prompts text)) = (w', List.map inr resps) ->
  get_all_analyses_single remote text {| world := w; sent := tr |}
  = ({| world := w'; sent := tr ++ requests (prompts text) |},
     inr (combine categories resps)).
Proof.
  intros Hs. rewrite get_all_unfold. unfold items.
  rewrite (@loop_answered World remote _ [] w w' tr resps Hs). f_equal. f_equal.
  apply serve_length in Hs. rewrite length_map in Hs.
  change (List.length (requests (prompts text))) with 9 in Hs.
  do 9 (destruct resps as [|? resps]; [discriminate|]).
  destruct resps; [|discriminate].
  vm_compute. reflexivity.
Qed.

End Answers.

End OrchestratorFacts.

(* ================================================================== *)
(** * Markup Cleaner: what is kept and what is dropped *)

Module CleanerContent.
Import ReFacts CleanerFacts.

Lemma Subseq_refl (s : str) : Subseq s s.
Proof. induction s; constructor; auto. Qed.

Lemma Subseq_nil_l (s : str) : Subseq [] s.
Proof. induction s; constructor; auto. Qed.

Lemma Subseq_trans (a b c : str) : Subseq a b -> Subseq b c -> Subseq a c.
Proof.
  intros Hab Hbc. revert a Hab.
  induction Hbc as [|x b c Hbc IH|x b c Hbc IH]; intros a Hab.
  - exact Hab.
  - inversion Hab; subst; constructor; auto.
  - constructor; auto.
Qed.

Lemma Subseq_app (a b c d : str) :
  Subseq a b -> Subseq c d -> Subseq (a ++ c) (b ++ d).
Proof.
  intros Hab Hcd. induction Hab; cbn [app]; try constructor; auto.
Qed.

Lemma Subseq_length (a b : str) :
  Subseq a b -> List.length a <= List.length b.
Proof. induction 1; cbn [List.length]; lia. Qed.

Lemma Subseq_rev (a b : str) : Subseq a b -> Subseq (rev a) (rev b).
Proof.
  induction 1 as [|c a b H IH|c a b H IH]; cbn [rev].
  - constructor.
  - apply Subseq_app; [exact IH|apply Subseq_refl].
  - rewrite <- (app_nil_r (rev a)). apply Subseq_app; [exact IH|].
    apply Subseq_nil_l.
Qed.

Lemma is_prefix_firstn (w s : str) :
  is_prefix w s = true -> firstn (List.length w) s = w.
Proof.
  revert s; induction w as [|x w IH]; intros [|y s]; cbn [is_prefix];
    try discriminate; [reflexivity|reflexivity|].
  intros H. apply andb_true_iff in H as [Hx Hw]. apply N.eqb_eq in Hx.
  subst. cbn [List.length firstn]. now rewrite IH.
Qed.

Lemma span_firstn (p : char -> bool) (s : str) :
  forallb p (firstn (span p s) s) = true.
Proof.
  induction s as [|c s IH]; [reflexivity|].
  cbn [span]. destruct (p c) eqn:E; [|reflexivity].
  cbn [firstn forallb]. now rewrite E, IH.
Qed.

Lemma nl_run_firstn (s : str) :
  firstn (span is_nl s) s = repeat c_nl (span is_nl s).
Proof.
  induction s as [|c s IH]; [reflexivity|].
  cbn [span]. destruct (is_nl c) eqn:E; [|reflexivity].
  apply N.eqb_eq in E. subst. cbn [firstn repeat]. now rewrite IH.
Qed.

Lemma firstn_plus (n k : nat) (s : str) :
  firstn (n + k) s = firstn n s ++ firstn k (skipn n s).
Proof.
  revert s. induction n as [|n IH]; intros s; [reflexivity|].
  destruct s as [|c s]; cbn [Nat.add firstn skipn app].
  - now rewrite firstn_nil.
  - now rewrite IH.
Qed.

Lemma forallb_weaken (p q : char -> bool) (s : str) :
  (forall c, p c = true -> q c = true) ->
  forallb p s = true -> forallb q s = true.
Proof.
  intros Hpq. induction s as [|c s IH]; [reflexivity|].
  cbn [forallb]. intros H. apply andb_true_iff in H as [Hc Hs].
  now rewrite (Hpq _ Hc), IH.
Qed.

(** What each pattern matches is made of droppable characters only. *)
Lemma matches_are_droppable (r : regex) (t : str) (n : nat) :
  In r [re_bold; re_heading; re_backtick; re_newlines] ->
  match_len r t = Some n ->
  forallb droppable (firstn n t) = true.
Proof.
  intros [<-|[<-|[<-|[<-|[]]]]].
  - rewrite match_len_bold.
    destruct (is_prefix (py "**") t) eqn:E1.
    + intros [= <-]. apply is_prefix_firstn in E1.
      change (List.length (py "**")) with 2 in E1. now rewrite E1.
    + destruct (is_prefix (py "__") t) eqn:E2; [|discriminate].
      intros [= <-]. apply is_prefix_firstn in E2.
      change (List.length (py "__")) with 2 in E2. now rewrite E2.
  - rewrite match_len_heading.
    destruct (1 <=? span is_hash t); [|discriminate]. intros [= <-].
    rewrite firstn_plus, forallb_app. apply andb_true_iff. split.
    + eapply forallb_weaken; [|apply span_firstn].
      intros c Hc. unfold droppable, is_marker. rewrite Hc.
      now rewrite !orb_true_r.
    + eapply forallb_weaken; [|apply span_firstn].
      intros c Hc. unfold droppable. rewrite Hc. apply orb_true_r.
  - rewrite match_len_backtick.
    destruct (is_prefix (py "`") t) eqn:E; [|discriminate].
    intros [= <-]. apply is_prefix_firstn in E.
    change (List.length (py "`")) with 1 in E. now rewrite E.
  - rewrite match_len_newlines.
    destruct (3 <=? span is_nl t); [|discriminate]. intros [= <-].
    eapply forallb_weaken; [|apply span_firstn].
    intros c Hc. apply N.eqb_eq in Hc. now subst.
Qed.

Lemma content_droppable (s : str) :
  forallb droppable s = true -> content s = [].
Proof.
  unfold content. induction s as [|c s IH]; [reflexivity|].
  cbn [forallb filter]. intros H. apply andb_true_iff in H as [-> H].
  cbn [negb]. auto.
Qed.

Lemma content_app (a b : str) : content (a ++ b) = content a ++ content b.
Proof. apply filter_app. Qed.

Section SubContent.
Variable r : regex.
Variable repl : str.
Hypothesis repl_droppable : forallb droppable repl = true.
Hypothesis match_droppable :
  forall t n, match_len r t = Some n -> forallb droppable (firstn n t) = true.

(** A substitution that replaces droppable text by droppable text leaves
    the content as it is. *)
Lemma sub_from_content (s : str) :
  forall k, content (sub_from r repl k s) = content (skipn k s).
Proof.
  induction s as [|c s IH]; intros k; [now destruct k|].
  destruct k as [|k]; cbn [sub_from skipn]; [|apply IH].
  destruct (match_len r (c :: s)) as [[|j]|] eqn:E.
  - change (c :: sub_from r repl 0 s) with ([c] ++ sub_from r repl 0 s).
    change (c :: s) with ([c] ++ s). rewrite !content_app. f_equal. apply IH.
  - rewrite content_app, (content_droppable _ repl_droppable), IH.
    rewrite <- (firstn_skipn (S j) (c :: s)) at 1.
    rewrite content_app, (content_droppable _ (match_droppable _ E)).
    reflexivity.
  - change (c :: sub_from r repl 0 s) with ([c] ++ sub_from r repl 0 s).
    change (c :: s) with ([c] ++ s). rewrite !content_app. f_equal. apply IH.
Qed.

Lemma sub_content (s : str) : content (Re.sub r repl s) = content s.
Proof. apply (sub_from_content s 0). Qed.

End SubContent.

Section SubSubseq.
Variable r : regex.
Variable repl : str.
Hypothesis repl_in_match :
  forall t n, match_len r t = Some (S n) -> Subseq repl (firstn (S n) t).

(** A substitution whose replacement is part of what it replaces only
    deletes characters. *)
Lemma sub_from_Subseq (s : str) :
  forall k, Subseq (sub_from r repl k s) (skipn k s).
Proof.
  induction s as [|c s IH]; intros k; [destruct k; constructor|].
  destruct k as [|k]; cbn [sub_from skipn]; [|apply IH].
  destruct (match_len r (c :: s)) as [[|j]|] eqn:E.
  - constructor. apply (IH 0).
  - rewrite <- (firstn_skipn (S j) (c :: s)) at 1.
    apply Subseq_app; [now apply repl_in_match|]. cbn [skipn]. apply IH.
  - constructor. apply (IH 0).
Qed.

Lemma sub_Subseq (s : str) : Subseq (Re.sub r repl s) s.
Proof. apply (sub_from_Subseq s 0). Qed.

End SubSubseq.

Lemma lstrip_content (s : str) : content (lstrip s) = content s.
Proof.
  induction s as [|c s IH]; [reflexivity|].
  cbn [lstrip]. destruct (isspace c) eqn:E; [|reflexivity].
  rewrite IH. unfold content. cbn [filter]. unfold droppable.
  now rewrite E, orb_true_r.
Qed.

Lemma content_rev (s : str) : content (rev s) = rev (content s).
Proof. apply filter_rev. Qed.

Lemma strip_content (s : str) : content (strip s) = content s.
Proof.
  unfold strip, rstrip.
  now rewrite content_rev, lstrip_content, content_rev, rev_involutive,
    lstrip_content.
Qed.

Lemma lstrip_Subseq (s : str) : Subseq (lstrip s) s.
Proof.
  induction s as [|c s IH]; [constructor|].
  cbn [lstrip]. destruct (isspace c); [now constructor|apply Subseq_refl].
Qed.

Lemma strip_Subseq (s : str) : Subseq (strip s) s.
Proof.
  unfold strip, rstrip. eapply Subseq_trans; [|apply lstrip_Subseq].
  rewrite <- (rev_involutive (lstrip s)) at 2.
  apply Subseq_rev, lstrip_Subseq.
Qed.

Lemma clean_content (s : str) : content (clean_markdown s) = content s.
Proof.
  unfold clean_markdown. rewrite strip_content.
  rewrite !sub_content; try reflexivity;
    intros t n; apply matches_are_droppable; cbn [In]; auto.
Qed.

Lemma clean_Subseq (s : str) : Subseq (clean_markdown s) s.
Proof.
  unfold clean_markdown.
  eapply Subseq_trans; [apply strip_Subseq|].
  eapply Subseq_trans.
  { apply sub_Subseq. intros t n E.
    apply newlines_match_len in E as [E H3]. rewrite E, nl_run_firstn.
    destruct (span is_nl t) as [|[|m]]; try lia.
    cbn [repeat]. do 2 constructor. apply Subseq_nil_l. }
  eapply Subseq_trans; [apply sub_Subseq; intros; apply Subseq_nil_l|].
  eapply Subseq_trans; [apply sub_Subseq; intros; apply Subseq_nil_l|].
  apply sub_Subseq; intros; apply Subseq_nil_l.
Qed.

(** A text in which no pattern matches and which is stripped is returned
    as it is. *)
Lemma clean_id (s : str) :
  has_bold_marker s = false -> ~ In c_hash s -> ~ In c_tick s ->
  has_match re_newlines s = false ->
  head_ok s = true -> head_ok (rev s) = true ->
  clean_markdown s = s.
Proof.
  intros Hb Hh Ht Hn H1 H2. unfold clean_markdown.
  rewrite (sub_no_match re_bold) by (now rewrite has_match_bold).
  rewrite (sub_no_match re_heading).
  2:{ apply no_hash_no_heading, Forall_forall. intros c Hc.
      unfold no_hash, is_hash. apply N.eqb_neq. intros ->. contradiction. }
  rewrite (sub_no_match re_backtick).
  2:{ apply no_tick_no_backtick, Forall_forall. intros c Hc.
      unfold no_tick, is_tick. apply N.eqb_neq. intros ->. contradiction. }
  rewrite (sub_no_match re_newlines) by exact Hn.
  unfold strip. rewrite (lstrip_id _ H1).
  unfold rstrip. rewrite (lstrip_id _ H2). apply rev_involutive.
Qed.

End CleanerContent.

(* ================================================================== *)
(** * Text Extractor *)

Section ExtractorTheorems.
Variable Page : Type.
Variable fitz_open : list Byte.byte -> result (list Page).
Variable get_text : Page -> str.

Lemma page_loop (doc : list Page) :
  forall text,
    fold_left (fun text page => text ++ get_text page) doc text
    = text ++ List.concat (List.map get_text doc).
Proof.
  induction doc as [|page doc IH]; intros text; cbn [fold_left List.map List.concat].
  - now rewrite app_nil_r.
  - now rewrite IH, app_assoc.
Qed.

(** C3. For every parseable input document, [extract_text_from_pdf]
    returns exactly the concatenation of the pages' texts in page order;
    for a document of one page it returns that page's text. *)
Theorem extract_text_is_page_concatenation
  (pdf_file : list Byte.byte) (doc : list Page) :
  fitz_open pdf_file = inr doc ->
  Extractor.extract_text_from_pdf fitz_open get_text pdf_file
  = inr (List.concat (List.map get_text doc))
  /\ (forall page, doc = [page] ->
      Extractor.extract_text_from_pdf fitz_open get_text pdf_file
      = inr (get_text page)).
Proof.
  intros H. unfold Extractor.extract_text_from_pdf. rewrite H, page_loop.
  split; [reflexivity|].
  intros page ->. cbn [List.map List.concat]. now rewrite app_nil_r.
Qed.

(** C9. For a parseable document with zero pages [extract_text_from_pdf]
    returns the empty string; it does not raise. *)
Theorem extract_text_of_no_page (pdf_file : list Byte.byte) :
  fitz_open pdf_file = inr [] ->
  Extractor.extract_text_from_pdf fitz_open get_text pdf_file = inr [].
Proof.
  intros H. unfold Extractor.extract_text_from_pdf. now rewrite H.
Qed.

(** X6. A document that cannot be parsed makes [extract_text_from_pdf]
    raise the parser's exception. *)
Theorem extract_text_propagates_failure (pdf_file : list Byte.byte) (e : exn) :
  fitz_open pdf_file = inl e ->
  Extractor.extract_text_from_pdf fitz_open get_text pdf_file = inl e.
Proof.
  intros H. unfold Extractor.extract_text_from_pdf. now rewrite H.
Qed.

End ExtractorTheorems.

Lemma extract_text_is_page_concatenation_witness :
  Samples.open_two_pages [] = inr Samples.two_pages /\
  Extractor.extract_text_from_pdf Samples.open_two_pages (fun p => p) []
  = inr (py "INT. KITCHEN - DAY Rain.") /\
  Extractor.extract_text_from_pdf Samples.open_one_page (fun p => p) []
  = inr (py "FADE IN:").
Proof.
  split; [reflexivity|]. split.
  - exact (proj1 (extract_text_is_page_concatenation
                    Samples.open_two_pages (fun p => p) [] eq_refl)).
  - exact (proj2 (extract_text_is_page_concatenation
                    Samples.open_one_page (fun p => p) [] eq_refl)
             (py "FADE IN:") eq_refl).
Defined.

Lemma extract_text_of_no_page_witness :
  Samples.open_no_page [] = inr [] /\
  Extractor.extract_text_from_pdf Samples.open_no_page (fun p => p) [] = inr [].
Proof.
  split; [reflexivity|].
  exact (extract_text_of_no_page Samples.open_no_page (fun p => p) [] eq_refl).
Defined.

Lemma extract_text_propagates_failure_witness :
  Samples.open_broken [] = inl Samples.parse_error /\
  Extractor.extract_text_from_pdf Samples.open_broken (fun p : str => p) []
  = inl Samples.parse_error.
Proof.
  split; [reflexivity|].
  exact (@extract_text_propagates_failure str Samples.open_broken
           (fun p => p) [] Samples.parse_error eq_refl).
Defined.

(* ================================================================== *)
(** * Markup Cleaner *)

Example clean_heading_bold_code :
  clean_markdown (py "## Title
**bold** and `code`



end  ") = py "Title
bold and code

end".
Proof. vm_compute. reflexivity. Qed.

Example clean_odd_asterisks : clean_markdown (py "***") = py "*".
Proof. vm_compute. reflexivity. Qed.

Example clean_underscores_between_asterisks :
  clean_markdown (py "*__*") = py "**".
Proof. vm_compute. reflexivity. Qed.

(** C5. For every input string, the output of [clean_markdown] never
    contains four or more consecutive line feeds: it cannot be cut into a
    text, four line feeds and a text. *)
Theorem clean_markdown_no_four_line_breaks (s pre post : str) :
  clean_markdown s <> pre ++ repeat c_nl 4 ++ post.
Proof.
  intros H. pose proof (clean_no_run s) as Hn.
  change (repeat c_nl 4 ++ post) with (repeat c_nl 3 ++ c_nl :: post) in H.
  rewrite H, run_has_match in Hn. discriminate.
Qed.

(** C1, as stated, fails: cleaning the three characters asterisk,
    backtick, asterisk gives two asterisks (the backtick goes after the
    bold markers were looked for), and cleaning that gives the empty
    string. *)
Lemma clean_markdown_not_idempotent :
  clean_markdown (py "*`*") = py "**" /\
  clean_markdown (clean_markdown (py "*`*")) = [] /\
  clean_markdown (clean_markdown (py "*`*")) <> clean_markdown (py "*`*").
Proof. repeat split. vm_compute. discriminate. Qed.

(** C1, amended. [clean_markdown] applied twice gives the same as applied
    once exactly when the first result holds no bold marker (neither two
    asterisks nor two underscores in a row). *)
Theorem clean_markdown_idempotent_iff (s : str) :
  clean_markdown (clean_markdown s) = clean_markdown s <->
  has_bold_marker (clean_markdown s) = false.
Proof.
  split.
  - intros H. destruct (has_bold_marker (clean_markdown s)) eqn:E; [|reflexivity].
    apply clean_shrinks in E. rewrite H in E. lia.
  - apply clean_fixed.
Qed.

(** X1. The cleaned text holds no number sign and no backtick. *)
Theorem clean_markdown_drops_hash_and_backtick (s : str) :
  ~ In c_hash (clean_markdown s) /\ ~ In c_tick (clean_markdown s).
Proof.
  split; intros H.
  - pose proof (clean_no_hash s) as F. rewrite Forall_forall in F.
    apply F in H. discriminate.
  - pose proof (clean_no_tick s) as F. rewrite Forall_forall in F.
    apply F in H. discriminate.
Qed.

(** X2. The cleaned text is stripped: it neither starts nor ends with
    white space, and [strip] leaves it as it is. *)
Theorem clean_markdown_is_stripped (s : str) :
  strip (clean_markdown s) = clean_markdown s
  /\ head_ok (clean_markdown s) = true
  /\ head_ok (rev (clean_markdown s)) = true.
Proof.
  split; [apply clean_stripped|]. unfold clean_markdown.
  split; [apply strip_head_ok|apply strip_last_ok].
Qed.

(** X3. The cleaned text does not even hold three line feeds in a row. *)
Theorem clean_markdown_no_three_line_breaks (s pre post : str) :
  clean_markdown s <> pre ++ repeat c_nl 3 ++ post.
Proof.
  intros H. pose proof (clean_no_run s) as Hn.
  rewrite H, run_has_match in Hn. discriminate.
Qed.

(** X4. The cleaned text is never longer than the input. *)
Theorem clean_markdown_not_longer (s : str) :
  List.length (clean_markdown s) <= List.length s.
Proof. apply clean_length. Qed.

(** X5. On a text without asterisk and underscore [clean_markdown] is
    idempotent. *)
Theorem clean_markdown_idempotent_without_emphasis (s : str) :
  ~ In c_star s -> ~ In c_under s ->
  clean_markdown (clean_markdown s) = clean_markdown s.
Proof.
  intros Hs Hu. apply clean_fixed.
  assert (F : Forall (fun c => c <> c_star /\ c <> c_under) (clean_markdown s)).
  { apply clean_Forall; [split; discriminate|].
    apply Forall_forall. intros c Hc. split; intros ->; contradiction. }
  rewrite Forall_forall in F.
  unfold has_bold_marker. rewrite py_stars, py_unders.
  rewrite !occurs_absent; [reflexivity| |];
    intros Hin; apply F in Hin; now destruct Hin.
Qed.

Lemma clean_markdown_idempotent_without_emphasis_witness :
  ~ In c_star (py "# A `b`") /\ ~ In c_under (py "# A `b`") /\
  clean_markdown (clean_markdown (py "# A `b`")) = clean_markdown (py "# A `b`").
Proof.
  assert (Hs : ~ In c_star (py "# A `b`"))
    by (intros H; vm_compute in H; intuition discriminate).
  assert (Hu : ~ In c_under (py "# A `b`"))
    by (intros H; vm_compute in H; intuition discriminate).
  split; [exact Hs|]. split; [exact Hu|].
  exact (@clean_markdown_idempotent_without_emphasis (py "# A `b`") Hs Hu).
Defined.

(* ================================================================== *)
(** * Report Compiler *)

Import Report ReportFacts Orchestrator OrchestratorFacts.

Lemma title_is_no_category : ~ In report_title categories.
Proof.
  intros H. apply (in_map (str_eqb report_title)) in H.
  vm_compute in H. intuition discriminate.
Qed.

(** C7. If either font file is missing when the document is built,
    [create_pdf_report] raises [FileNotFoundError]: no report document is
    returned. *)
Theorem report_fails_without_fonts
  (isfile : str -> bool) (fpdf : library) (data : dict) :
  isfile font_regular = false \/ isfile font_bold = false ->
  snd (create_pdf_report isfile fpdf data)
  = inl (FileNotFoundError font_error).
Proof. intros H. now rewrite report_without_fonts. Qed.

Lemma report_fails_without_fonts_witness :
  (Samples.only_regular font_regular = false
   \/ Samples.only_regular font_bold = false) /\
  snd (create_pdf_report Samples.only_regular Samples.reliable
         Samples.complete_result)
  = inl (FileNotFoundError font_error).
Proof.
  assert (H : Samples.only_regular font_regular = false
              \/ Samples.only_regular font_bold = false)
    by (right; reflexivity).
  split; [exact H|].
  exact (report_fails_without_fonts Samples.only_regular Samples.reliable
           Samples.complete_result H).
Defined.

(** C10. The font check comes before any font is registered and before
    any title, heading or body is written: when [create_pdf_report] fails
    for a missing font, the only call made on the [FPDF] object is
    [add_page] (no font registered, no [cell], no [multi_cell]), no
    [BytesIO] has been created, and the caller gets an exception, not a
    stream. *)
Theorem report_failure_is_atomic
  (isfile : str -> bool) (fpdf : library) (data : dict) :
  isfile font_regular = false \/ isfile font_bold = false ->
  let (h, r) := create_pdf_report isfile fpdf data in
  pdf h = [AddPage]
  /\ registered_fonts (pdf h) = []
  /\ cell_texts (pdf h) = []
  /\ multi_cell_texts (pdf h) = []
  /\ buffers h = 0
  /\ r = inl (FileNotFoundError font_error)
  /\ (forall buffer, r <> inr buffer).
Proof.
  intros H. rewrite report_without_fonts by exact H.
  cbn [pdf buffers]. repeat split. intros buffer. discriminate.
Qed.

Lemma report_failure_is_atomic_witness :
  (Samples.no_files font_regular = false
   \/ Samples.no_files font_bold = false) /\
  let (h, r) := create_pdf_report Samples.no_files Samples.unloadable_fonts
                  Samples.complete_result in
  pdf h = [AddPage]
  /\ registered_fonts (pdf h) = []
  /\ cell_texts (pdf h) = []
  /\ multi_cell_texts (pdf h) = []
  /\ buffers h = 0
  /\ r = inl (FileNotFoundError font_error)
  /\ (forall buffer, r <> inr buffer).
Proof.
  assert (H : Samples.no_files font_regular = false
              \/ Samples.no_files font_bold = false)
    by (left; reflexivity).
  split; [exact H|].
  exact (report_failure_is_atomic Samples.no_files Samples.unloadable_fonts
           Samples.complete_result H).
Defined.

(** C6. For every result whose keys are the nine categories in the fixed
    order, when the font resources are available (both files are there and
    the library raises on none of the calls of the report),
    [create_pdf_report] returns a stream, rewound; the document written to
    it is the one of all the calls, it is not empty, and the texts of its
    [cell] calls are the title followed by the nine category labels in the
    fixed order. *)
Theorem report_of_complete_result
  (isfile : str -> bool) (fpdf : library) (data : dict) :
  isfile font_regular = true -> isfile font_bold = true ->
  accepts fpdf data = true ->
  keys data = categories ->
  exists buffer,
    snd (create_pdf_report isfile fpdf data) = inr buffer
    /\ rewound buffer = true
    /\ document buffer = header_ops ++ flat_map section_ops data
    /\ document buffer <> []
    /\ cell_texts (document buffer) = report_title :: categories.
Proof.
  intros Hr Hb Ha Hk. rewrite (report_accepted isfile fpdf data Hr Hb Ha).
  eexists. split; [reflexivity|]. cbn [document rewound].
  split; [reflexivity|]. split; [reflexivity|]. split; [discriminate|].
  now rewrite cell_texts_report, Hk.
Qed.

Lemma report_of_complete_result_witness :
  Samples.all_files font_regular = true /\
  Samples.all_files font_bold = true /\
  accepts Samples.reliable Samples.complete_result = true /\
  keys Samples.complete_result = categories /\
  exists buffer,
    snd (create_pdf_report Samples.all_files Samples.reliable
           Samples.complete_result)
    = inr buffer
    /\ rewound buffer = true
    /\ document buffer
       = header_ops ++ flat_map section_ops Samples.complete_result
    /\ document buffer <> []
    /\ cell_texts (document buffer) = report_title :: categories.
Proof.
  assert (Ha : accepts Samples.reliable Samples.complete_result = true)
    by (vm_compute; reflexivity).
  split; [reflexivity|]. split; [reflexivity|]. split; [exact Ha|].
  split; [reflexivity|].
  exact (report_of_complete_result Samples.all_files Samples.reliable
           Samples.complete_result eq_refl eq_refl Ha eq_refl).
Defined.

(** C2, as stated, fails: with the fonts in place and a library that
    raises on no call, a result without the Genre entry is accepted, and
    the document has the other eight sections. *)
Lemma report_of_incomplete_result_is_built :
  In (py "Genre") categories /\
  keys Samples.result_without_genre
  = [ py "Logline"; py "Top Keywords"; py "Location Setting"; py "Synopsis";
      py "Script Score"; py "Plot Assessment"; py "Character Profiling";
      py "Box Office Collection" ] /\
  ~ In (py "Genre") (keys Samples.result_without_genre) /\
  exists buffer,
    snd (create_pdf_report Samples.all_files Samples.reliable
           Samples.result_without_genre)
    = inr buffer
    /\ cell_texts (document buffer)
       = report_title :: keys Samples.result_without_genre.
Proof.
  split; [right; left; reflexivity|]. split; [reflexivity|]. split.
  - intros H. apply (in_map (str_eqb (py "Genre"))) in H.
    vm_compute in H. intuition discriminate.
  - rewrite (report_accepted Samples.all_files Samples.reliable _
               eq_refl eq_refl
               (reliable_accepts _)).
    eexists. split; [reflexivity|]. cbn [document].
    apply cell_texts_report.
Qed.

(** C2, amended. [create_pdf_report] does not check the keys: with both
    font files there and a library that raises on none of the calls of the
    report, it returns a stream also for a result that lacks a category;
    the document has one heading for each entry of the result, in the
    result's order, its body the cleaned text of that entry, and no
    heading for the category that is missing. *)
Theorem report_omits_missing_sections
  (isfile : str -> bool) (fpdf : library) (data : dict) (category : str) :
  isfile font_regular = true -> isfile font_bold = true ->
  accepts fpdf data = true ->
  In category categories -> ~ In category (keys data) ->
  exists buffer,
    snd (create_pdf_report isfile fpdf data) = inr buffer
    /\ cell_texts (document buffer) = report_title :: keys data
    /\ multi_cell_texts (document buffer)
       = List.map (fun entry => clean_markdown (snd entry)) data
    /\ ~ In category (cell_texts (document buffer)).
Proof.
  intros Hr Hb Ha Hc Hk. rewrite (report_accepted isfile fpdf data Hr Hb Ha).
  eexists. split; [reflexivity|]. cbn [document].
  split; [apply cell_texts_report|].
  split; [apply multi_cell_texts_report|].
  rewrite cell_texts_report. intros [<-|H]; [|contradiction].
  now apply title_is_no_category.
Qed.

Lemma report_omits_missing_sections_witness :
  Samples.all_files font_regular = true /\
  Samples.all_files font_bold = true /\
  accepts Samples.reliable Samples.result_without_genre = true /\
  In (py "Genre") categories /\
  exists buffer,
    snd (create_pdf_report Samples.all_files Samples.reliable
           Samples.result_without_genre)
    = inr buffer
    /\ ~ In (py "Genre") (cell_texts (document buffer)).
Proof.
  assert (Ha : accepts Samples.reliable Samples.result_without_genre = true)
    by (vm_compute; reflexivity).
  assert (Hc : In (py "Genre") categories) by (right; left; reflexivity).
  assert (Hk : ~ In (py "Genre") (keys Samples.result_without_genre)).
  { intros H. apply (in_map (str_eqb (py "Genre"))) in H.
    vm_compute in H. intuition discriminate. }
  split; [reflexivity|]. split; [reflexivity|]. split; [exact Ha|].
  split; [exact Hc|].
  destruct (report_omits_missing_sections Samples.all_files Samples.reliable
              Samples.result_without_genre (category := py "Genre")
              eq_refl eq_refl Ha Hc Hk) as (buffer & H1 & _ & _ & H4).
  exists buffer. split; [exact H1|exact H4].
Defined.

(** X7. With both fonts there and a library that raises on none of the
    calls of the report, the stream returned is rewound, both fonts are
    registered in the document, regular before bold, and the body texts
    are the cleaned values of the result, in its order. *)
Theorem report_bodies_are_cleaned
  (isfile : str -> bool) (fpdf : library) (data : dict) :
  isfile font_regular = true -> isfile font_bold = true ->
  accepts fpdf data = true ->
  exists buffer,
    snd (create_pdf_report isfile fpdf data) = inr buffer
    /\ rewound buffer = true
    /\ registered_fonts (document buffer) = [font_regular; font_bold]
    /\ multi_cell_texts (document buffer)
       = List.map (fun entry => clean_markdown (snd entry)) data.
Proof.
  intros Hr Hb Ha. rewrite (report_accepted isfile fpdf data Hr Hb Ha).
  eexists. split; [reflexivity|]. cbn [document rewound].
  split; [reflexivity|].
  split; [apply registered_fonts_report|apply multi_cell_texts_report].
Qed.

Lemma report_bodies_are_cleaned_witness :
  Samples.all_files font_regular = true /\
  Samples.all_files font_bold = true /\
  accepts Samples.reliable Samples.complete_result = true /\
  exists buffer,
    snd (create_pdf_report Samples.all_files Samples.reliable
           Samples.complete_result)
    = inr buffer
    /\ rewound buffer = true
    /\ registered_fonts (document buffer) = [font_regular; font_bold]
    /\ multi_cell_texts (document buffer)
       = List.map (fun entry => clean_markdown (snd entry))
           Samples.complete_result.
Proof.
  assert (Ha : accepts Samples.reliable Samples.complete_result = true)
    by (vm_compute; reflexivity).
  split; [reflexivity|]. split; [reflexivity|]. split; [exact Ha|].
  exact (report_bodies_are_cleaned Samples.all_files Samples.reliable
           Samples.complete_result eq_refl eq_refl Ha).
Defined.

(** X28. [create_pdf_report] returns a stream exactly when both font
    files are there and the library raises on none of the calls of the
    report nor on [output]; the stream is then rewound and holds the
    document of all the calls. *)
Theorem report_is_returned_iff
  (isfile : str -> bool) (fpdf : library) (data : dict) (buffer : BytesIO) :
  snd (create_pdf_report isfile fpdf data) = inr buffer <->
  isfile font_regular = true /\ isfile font_bold = true
  /\ accepts fpdf data = true
  /\ buffer = {| document := header_ops ++ flat_map section_ops data;
                 rewound := true |}.
Proof.
  split.
  - intros H. pose proof (report_returned isfile fpdf data H) as Hbuf.
    destruct (isfile font_regular) eqn:Hr;
      [|rewrite report_without_fonts in H by (now left); discriminate].
    destruct (isfile font_bold) eqn:Hb;
      [|rewrite report_without_fonts in H by (now right); discriminate].
    rewrite (report_outcome isfile fpdf data Hr Hb) in H. unfold accepts.
    destruct (first_error fpdf _ _); [discriminate|].
    destruct (output_raises fpdf _); [discriminate|].
    repeat split. exact Hbuf.
  - intros (Hr & Hb & Ha & ->). apply report_accepted; assumption.
Qed.

(** X29. A font file that is there but cannot be loaded: when the
    registration of the regular font raises, [create_pdf_report] ends with
    that exception; only [add_page] has been done, no [BytesIO] has been
    created and nothing is returned. *)
Theorem report_fails_on_unloadable_font
  (isfile : str -> bool) (fpdf : library) (data : dict) (e : exn) :
  isfile font_regular = true -> isfile font_bold = true ->
  raises fpdf [AddPage] (AddFont (py "DejaVu") (py "") font_regular true)
  = Some e ->
  create_pdf_report isfile fpdf data
  = ({| pdf := [AddPage]; buffers := 0 |}, inl e).
Proof.
  intros Hr Hb He. unfold create_pdf_report, create_pdf_report_body.
  rewrite bind_add_page, Hr, Hb. cbn [negb orb FPDF pdf buffers app].
  rewrite bind_call. cbn [pdf buffers]. now rewrite He.
Qed.

Lemma report_fails_on_unloadable_font_witness :
  Samples.all_files font_regular = true /\
  Samples.all_files font_bold = true /\
  create_pdf_report Samples.all_files Samples.unloadable_fonts
    Samples.complete_result
  = ({| pdf := [AddPage]; buffers := 0 |}, inl Samples.font_parse_error).
Proof.
  split; [reflexivity|]. split; [reflexivity|].
  exact (report_fails_on_unloadable_font Samples.all_files
           Samples.unloadable_fonts Samples.complete_result
           eq_refl eq_refl eq_refl).
Defined.

(* ================================================================== *)
(** * Analysis Orchestrator *)

Section OrchestratorTheorems.
Variable World : Type.
Variable remote : World -> request -> World * result str.

(** C4. If the remote call for some category fails (the calls for the
    categories before it were answered), [get_all_analyses_single] ends
    with that exception and returns no result, not even a partial one; the
    requests sent are those for the earlier categories and the failed one,
    and no request for a later category is among them. *)
Theorem orchestrator_stops_at_first_failure
  (screenplay_text : str) (pre post : list (str * str)) (name prompt : str)
  (w w1 w2 : World) (tr : list request) (resps : list str) (e : exn) :
  prompts screenplay_text = pre ++ (name, prompt) :: post ->
  serve remote w (requests pre) = (w1, List.map inr resps) ->
  remote w1 (batch_request prompt) = (w2, inl e) ->
  get_all_analyses_single remote screenplay_text {| world := w; sent := tr |}
  = ({| world := w2; sent := tr ++ requests pre ++ [batch_request prompt] |},
     inl e)
  /\ (forall later, In later post ->
      ~ In (batch_request (snd later))
          (requests pre ++ [batch_request prompt])).
Proof.
  intros Hp Hs Hf. split.
  - rewrite get_all_unfold. unfold items. rewrite Hp.
    now apply (@loop_failed World remote pre post name prompt []
                 w w1 w2 tr resps e).
  - intros later Hl Hin.
    pose proof (requests_NoDup screenplay_text) as Hn. rewrite Hp in Hn.
    change (pre ++ (name, prompt) :: post)
      with (pre ++ [(name, prompt)] ++ post) in Hn.
    rewrite app_assoc, requests_app, requests_app in Hn.
    apply (NoDup_app_disjoint _ _ (batch_request (snd later)) Hn).
    + exact Hin.
    + unfold requests. now apply (in_map (fun p => batch_request (snd p))).
Qed.

(** C8. When the screenplay text is empty and the service answers the
    nine requests, [get_all_analyses_single] sends exactly
    these nine requests, one per category in the fixed order, and returns
    the answers under the category names; each prompt is the category's
    instruction followed by the screenplay block with nothing between the
    triple quotes. *)
Theorem orchestrator_calls_for_empty_text
  (w w' : World) (tr : list request) (resps : list str) :
  serve remote w (requests (prompts [])) = (w', List.map inr resps) ->
  get_all_analyses_single remote [] {| world := w; sent := tr |}
  = ({| world := w'; sent := tr ++ requests (prompts []) |},
     inr (combine categories resps))
  /\ List.length (requests (prompts [])) = 9
  /\ keys (prompts []) = categories
  /\ List.map user_content (requests (prompts []))
     = List.map (fun instr => instr ++ screenplay_open ++ [] ++ dq3)
         instructions.
Proof.
  intros Hs. split; [|repeat split].
  now apply get_all_answered.
Qed.

(** X8. Whatever the text, when the service answers the nine requests
    the function sends exactly these, in the fixed order, and returns the
    nine answers under the category names, in the fixed order. *)
Theorem orchestrator_collects_answers
  (screenplay_text : str) (w w' : World) (tr : list request)
  (resps : list str) :
  serve remote w (requests (prompts screenplay_text))
  = (w', List.map inr resps) ->
  get_all_analyses_single remote screenplay_text
    {| world := w; sent := tr |}
  = ({| world := w'; sent := tr ++ requests (prompts screenplay_text) |},
     inr (combine categories resps))
  /\ keys (combine categories resps) = categories.
Proof.
  intros Hs. split; [now apply get_all_answered|].
  apply serve_length in Hs. rewrite length_map in Hs.
  apply keys_combine. exact Hs.
Qed.

End OrchestratorTheorems.

Lemma orchestrator_collects_answers_witness :
  serve Samples.answering 0 (requests (prompts (py "INT. KITCHEN - DAY")))
  = (9, List.map inr (repeat (py "An answer.") 9)) /\
  get_all_analyses_single Samples.answering (py "INT. KITCHEN - DAY")
    {| world := 0; sent := [] |}
  = ({| world := 9;
        sent := [] ++ requests (prompts (py "INT. KITCHEN - DAY")) |},
     inr (combine categories (repeat (py "An answer.") 9))).
Proof.
  assert (H : serve Samples.answering 0
                (requests (prompts (py "INT. KITCHEN - DAY")))
              = (9, List.map inr (repeat (py "An answer.") 9)))
    by (vm_compute; reflexivity).
  split; [exact H|].
  exact (proj1 (@orchestrator_collects_answers nat Samples.answering
                  (py "INT. KITCHEN - DAY") 0 9 []
                  (repeat (py "An answer.") 9) H)).
Defined.

Lemma orchestrator_stops_at_first_failure_witness :
  let text := py "INT. KITCHEN - DAY" in
  let logline :=
    (py "Logline", instr_logline ++ screenplay_open ++ text ++ dq3) in
  let genre := instr_genre ++ screenplay_open ++ text ++ dq3 in
  prompts text = [logline] ++ (py "Genre", genre) :: skipn 2 (prompts text)
  /\ serve Samples.failing_second 0 (requests [logline])
     = (1, List.map inr [py "An answer."])
  /\ Samples.failing_second 1 (batch_request genre)
     = (2, inl Samples.transport_error)
  /\ get_all_analyses_single Samples.failing_second text
       {| world := 0; sent := [] |}
     = ({| world := 2;
           sent := [] ++ requests [logline] ++ [batch_request genre] |},
        inl Samples.transport_error).
Proof.
  intros text logline genre.
  repeat (split; [reflexivity|]).
  exact (proj1 (@orchestrator_stops_at_first_failure nat
                  Samples.failing_second text [logline]
                  (skipn 2 (prompts text)) (py "Genre") genre
                  0 1 2 [] [py "An answer."] Samples.transport_error
                  eq_refl eq_refl eq_refl)).
Defined.

Lemma orchestrator_calls_for_empty_text_witness :
  serve Samples.answering 0 (requests (prompts []))
  = (9, List.map inr (repeat (py "An answer.") 9)) /\
  get_all_analyses_single Samples.answering [] {| world := 0; sent := [] |}
  = ({| world := 9; sent := [] ++ requests (prompts []) |},
     inr (combine categories (repeat (py "An answer.") 9))).
Proof.
  assert (H : serve Samples.answering 0 (requests (prompts []))
              = (9, List.map inr (repeat (py "An answer.") 9)))
    by (vm_compute; reflexivity).
  split; [exact H|].
  exact (proj1 (@orchestrator_calls_for_empty_text nat Samples.answering
                  0 9 [] (repeat (py "An answer.") 9) H)).
Defined.

(* ================================================================== *)
(** * Markup Cleaner: what is kept, and the texts it leaves alone *)

Module CleanerFixed.
Import ReFacts CleanerFacts.

Lemma span_three (s : str) :
  (3 <=? span is_nl s) = is_prefix (repeat c_nl 3) s.
Proof.
  destruct s as [|x [|y [|z s]]]; cbn [span is_prefix repeat];
    unfold is_nl; rewrite ?(N.eqb_sym c_nl);
    try destruct (N.eqb x c_nl); try destruct (N.eqb y c_nl);
    try destruct (N.eqb z c_nl); reflexivity.
Qed.

Lemma has_match_newlines (s : str) :
  has_match re_newlines s = occurs (repeat c_nl 3) s.
Proof.
  induction s as [|c s IH]; [reflexivity|].
  cbn [has_match occurs]. now rewrite IH, newlines_matches_at, span_three.
Qed.

Lemma Forall_not_In (c : char) (p : char -> bool) (s : str) :
  p c = true -> Forall (fun x => p x = false) s -> ~ In c s.
Proof.
  intros Hc F Hin. rewrite Forall_forall in F. apply F in Hin. congruence.
Qed.

End CleanerFixed.

(** X10. [clean_markdown] keeps the content of a text: the characters
    other than asterisk, underscore, number sign, backtick and white space
    are the same, in the same order, before and after. *)
Theorem clean_markdown_keeps_content (s : str) :
  content (clean_markdown s) = content s.
Proof. apply CleanerContent.clean_content. Qed.

(** X11. [clean_markdown] only deletes: the cleaned text is obtained from
    the input by leaving characters out; nothing is added, changed or
    moved. *)
Theorem clean_markdown_only_deletes (s : str) :
  Subseq (clean_markdown s) s.
Proof. apply CleanerContent.clean_Subseq. Qed.

(** X12. The texts [clean_markdown] returns unchanged are exactly those
    with no bold marker, no number sign, no backtick, no three line feeds
    in a row and no white space at either end. *)
Theorem clean_markdown_fixed_points (s : str) :
  clean_markdown s = s <->
  has_bold_marker s = false /\ ~ In c_hash s /\ ~ In c_tick s /\
  occurs (repeat c_nl 3) s = false /\
  head_ok s = true /\ head_ok (rev s) = true.
Proof.
  split.
  - intros H. split; [|split; [|split; [|split; [|split]]]].
    + destruct (has_bold_marker s) eqn:E; [|reflexivity].
      apply CleanerFacts.clean_shrinks in E. rewrite H in E. lia.
    + rewrite <- H.
      apply (CleanerFixed.Forall_not_In c_hash is_hash);
        [reflexivity|apply CleanerFacts.clean_no_hash].
    + rewrite <- H.
      apply (CleanerFixed.Forall_not_In c_tick is_tick);
        [reflexivity|apply CleanerFacts.clean_no_tick].
    + rewrite <- CleanerFixed.has_match_newlines, <- H.
      apply CleanerFacts.clean_no_run.
    + rewrite <- H. unfold clean_markdown. apply PyFacts.strip_head_ok.
    + rewrite <- H. unfold clean_markdown. apply PyFacts.strip_last_ok.
  - intros (Hb & Hh & Ht & Hn & H1 & H2).
    apply CleanerContent.clean_id; try assumption.
    now rewrite CleanerFixed.has_match_newlines.
Qed.

(* ================================================================== *)
(** * Facts about one run of the script *)

Module AppFacts.
Import Report ReportFacts Orchestrator OrchestratorFacts PosixPath App.

Section Script.
Variable Page : Type.
Variable fitz_open : list Byte.byte -> result (list Page).
Variable get_text : Page -> str.
Variable World : Type.
Variable remote : World -> request -> World * result str.
Variable isfile : str -> bool.
Variable fpdf : library.
Variable secrets : str -> option str.

Lemma script_without_key (up : option (str * list Byte.byte)) (g : bool)
  (a : runtime World) :
  secrets (py "OPENAI_API_KEY") = None ->
  script fitz_open get_text remote isfile fpdf secrets up g a =
  ({| state := with_movie_key (state a); api := api a;
      screen := screen a ++ [PageConfig (py "RAIN-CHECK")] |},
   inl (key_error (py "OPENAI_API_KEY"))).
Proof.
  intros H. unfold script, bind, show, get_state, put_state, read_secret.
  cbn [state api screen]. rewrite H. unfold with_movie_key.
  destruct (current_movie (state a)); reflexivity.
Qed.

Lemma run_without_upload (g : bool) (a : runtime World) (k : str) :
  secrets (py "OPENAI_API_KEY") = Some k ->
  script fitz_open get_text remote isfile fpdf secrets None g a =
  ({| state := with_movie_key (state a); api := api a;
      screen :=
        screen a ++ page_head
        ++ [Info (py "Please upload a PDF screenplay to begin analysis.")] |},
   inr tt).
Proof.
  intros H. unfold script, bind, show, get_state, put_state, read_secret.
  cbn [state api screen]. rewrite H. unfold with_movie_key, page_head.
  destruct (current_movie (state a)); cbn [ret state api screen];
    rewrite <- !app_assoc; reflexivity.
Qed.

Lemma script_with_upload (name : str) (content : list Byte.byte) (g : bool)
  (a : runtime World) (k : str) :
  secrets (py "OPENAI_API_KEY") = Some k ->
  script fitz_open get_text remote isfile fpdf secrets (Some (name, content)) g a =
  (@extract_on_upload Page fitz_open get_text World (fst (splitext name)) content ;;;
   @show World (Button (py "Generate Report")) ;;;
   if g then @generate_report World remote isfile fpdf (fst (splitext name))
   else ret tt)
    (started a).
Proof.
  intros H. unfold script, started.
  unfold bind at 1. unfold show at 1. cbn [state api screen].
  unfold bind at 1. unfold bind at 1. unfold get_state at 1.
  cbn [state api screen].
  unfold bind at 1. unfold read_secret. rewrite H.
  unfold with_movie_key, page_head.
  destruct (current_movie (state a));
    unfold put_state, ret, bind at 1, show at 1; cbn [state api screen];
    unfold bind at 1, show at 1; cbn [state api screen];
    rewrite <- !app_assoc; reflexivity.
Qed.

(** ** Lines 179 to 183 *)

Lemma needs_extraction_started (st : session_state) (movie : str) :
  needs_extraction (with_movie_key st) movie = needs_extraction st movie.
Proof.
  unfold needs_extraction, with_movie_key.
  destruct (current_movie st) as [v|] eqn:E; cbn [screenplay_text current_movie];
    [now rewrite E|]. now destruct (screenplay_text st).
Qed.

Lemma upload_kept (movie : str) (content : list Byte.byte) (a : runtime World) :
  current_movie (state a) <> None ->
  needs_extraction (state a) movie = false ->
  @extract_on_upload Page fitz_open get_text World movie content a = (a, inr tt).
Proof.
  unfold needs_extraction, extract_on_upload, bind, get_state,
    read_current_movie.
  intros Hk H. destruct (screenplay_text (state a)); [|discriminate].
  unfold bind, get_state.
  destruct (current_movie (state a)) as [v|]; [|contradiction].
  cbn [ret]. now rewrite H.
Qed.

Lemma upload_extracted (movie : str) (content : list Byte.byte)
  (doc : list Page) (a : runtime World) :
  current_movie (state a) <> None ->
  needs_extraction (state a) movie = true ->
  fitz_open content = inr doc ->
  @extract_on_upload Page fitz_open get_text World movie content a =
  ({| state := {| current_movie := Some (Some movie);
                  screenplay_text :=
                    Some (List.concat (List.map get_text doc)) |};
      api := api a;
      screen := screen a ++ [ Spinner (py "Extracting screenplay...");
                              Success (py "Screenplay extracted and ready!") ]
   |}, inr tt).
Proof.
  intros Hk H Hd.
  assert (Ht : Extractor.extract_text_from_pdf fitz_open get_text content
               = inr (List.concat (List.map get_text doc))).
  { unfold Extractor.extract_text_from_pdf. now rewrite Hd, page_loop. }
  unfold needs_extraction in H.
  unfold extract_on_upload, bind, get_state, read_current_movie.
  destruct (screenplay_text (state a)).
  - unfold bind, get_state.
    destruct (current_movie (state a)) as [v|]; [|contradiction].
    cbn [ret]. rewrite H. unfold show, lift_result, put_state.
    cbn [state api screen]. rewrite Ht. cbn [state api screen].
    rewrite <- app_assoc. reflexivity.
  - cbn [ret]. unfold show, lift_result, put_state.
    cbn [state api screen]. rewrite Ht. cbn [state api screen].
    rewrite <- app_assoc. reflexivity.
Qed.

Lemma upload_failed (movie : str) (content : list Byte.byte) (e : exn)
  (a : runtime World) :
  current_movie (state a) <> None ->
  needs_extraction (state a) movie = true ->
  fitz_open content = inl e ->
  @extract_on_upload Page fitz_open get_text World movie content a =
  ({| state := state a; api := api a;
      screen := screen a ++ [Spinner (py "Extracting screenplay...")] |},
   inl e).
Proof.
  intros Hk H Hd.
  unfold needs_extraction in H.
  unfold extract_on_upload, bind, get_state, read_current_movie.
  destruct (screenplay_text (state a)).
  - unfold bind, get_state.
    destruct (current_movie (state a)) as [v|]; [|contradiction].
    cbn [ret]. rewrite H. unfold show, lift_result.
    cbn [state api screen]. unfold Extractor.extract_text_from_pdf.
    now rewrite Hd.
  - cbn [ret]. unfold show, lift_result.
    cbn [state api screen]. unfold Extractor.extract_text_from_pdf.
    now rewrite Hd.
Qed.

(** ** Lines 186 to 207 *)

Lemma display_loop (d : dict) :
  forall a : runtime World,
    for_each (items d)
      (fun _ '(section, content) =>
         @show World (Write (py "**" ++ section ++ py ":**")) ;;;
         show (Write (clean_markdown content)) ;;;
         show (Write (py ""))) tt a
    = ({| state := state a; api := api a;
          screen :=
            screen a
            ++ flat_map (fun entry =>
                           [ Write (py "**" ++ fst entry ++ py ":**");
                             Write (clean_markdown (snd entry));
                             Write (py "") ]) d |},
       inr tt).
Proof.
  unfold items. induction d as [|[section content] d IH]; intros a.
  - cbn [for_each flat_map ret]. rewrite app_nil_r. now destruct a.
  - cbn [for_each]. unfold bind at 1, bind at 1, show at 1.
    cbn [state api screen]. unfold bind at 1, show at 1.
    cbn [state api screen]. unfold show at 1. cbn [state api screen].
    rewrite IH. cbn [state api screen flat_map fst snd].
    rewrite <- !app_assoc. reflexivity.
Qed.

(** The part of [generate_report] that follows the remote calls. *)
Lemma generate_unfold (movie t : str) (a : runtime World) :
  screenplay_text (state a) = Some t ->
  @generate_report World remote isfile fpdf movie a =
  let a1 := {| state := state a; api := api a;
               screen := screen a
                         ++ [Spinner (py "Analyzing screenplay" ++ [ellipsis])] |} in
  match get_all_analyses_single remote t (api a) with
  | (s, inl e) => ({| state := state a; api := s; screen := screen a1 |}, inl e)
  | (s, inr all_results) =>
      if truthy all_results
      then
        let a2 := {| state := state a; api := s;
                     screen := screen a1 ++ results_view all_results |} in
        match snd (create_pdf_report isfile fpdf all_results) with
        | inl e => (a2, inl e)
        | inr pdf_file =>
            ({| state := state a; api := s;
                screen :=
                  screen a2
                  ++ [ Success (py "Analysis complete!");
                       DownloadButton (py "Download Analysis Report as PDF")
                         pdf_file (movie ++ py "-report.pdf")
                         (py "application/pdf") ] |},
             inr tt)
        end
      else ({| state := state a; api := s; screen := screen a1 |}, inr tt)
  end.
Proof.
  intros Ht. unfold generate_report.
  unfold bind at 1, show at 1. cbn [state api screen].
  unfold bind at 1, read_screenplay_text, bind at 1, get_state at 1.
  cbn [state api screen]. rewrite Ht. cbn [ret].
  unfold bind at 1, lift_api at 1. cbn [state api screen].
  destruct (get_all_analyses_single remote t (api a)) as [s [e|all_results]];
    [reflexivity|].
  destruct (truthy all_results); [|reflexivity].
  unfold bind at 1, show at 1. cbn [state api screen].
  unfold bind at 1, show at 1. cbn [state api screen].
  unfold bind at 1. rewrite display_loop. cbn [state api screen].
  unfold bind at 1, lift_result at 1.
  unfold results_view.
  destruct (snd (create_pdf_report isfile fpdf all_results)) as [e|pdf_file].
  - f_equal. f_equal. rewrite <- !app_assoc. reflexivity.
  - unfold bind at 1, show at 1. cbn [state api screen].
    unfold show. cbn [state api screen].
    f_equal. f_equal. rewrite <- !app_assoc. reflexivity.
Qed.

End Script.

End AppFacts.

(* ================================================================== *)
(** * The script: uploads, session state and report generation *)

Import PosixPath App AppFacts.

Section ScriptTheorems.
Variable Page : Type.
Variable fitz_open : list Byte.byte -> result (list Page).
Variable get_text : Page -> str.
Variable World : Type.
Variable remote : World -> request -> World * result str.
Variable isfile : str -> bool.
Variable fpdf : library.
Variable secrets : str -> option str.

Lemma started_has_key (a : runtime World) :
  current_movie (state (started a)) <> None.
Proof.
  unfold started, with_movie_key. cbn [state].
  destruct (current_movie (state a)) eqn:E; cbn [current_movie];
    [rewrite E|]; discriminate.
Qed.

Lemma kept_state (st : session_state) (movie : str) :
  needs_extraction st movie = false -> with_movie_key st = st.
Proof.
  unfold needs_extraction, with_movie_key.
  destruct (screenplay_text st); [|discriminate].
  now destruct (current_movie st).
Qed.

(** One run with an upload and no click, when the text is extracted. *)
Lemma run_extracts (name : str) (content : list Byte.byte) (doc : list Page)
  (a : runtime World) (k : str) :
  secrets (py "OPENAI_API_KEY") = Some k ->
  needs_extraction (state a) (fst (splitext name)) = true ->
  fitz_open content = inr doc ->
  script fitz_open get_text remote isfile fpdf secrets (Some (name, content))
    false a =
  ({| state := {| current_movie := Some (Some (fst (splitext name)));
                  screenplay_text :=
                    Some (List.concat (List.map get_text doc)) |};
      api := api a;
      screen := screen a ++ page_head
                ++ [ Spinner (py "Extracting screenplay...");
                     Success (py "Screenplay extracted and ready!");
                     Button (py "Generate Report") ] |},
   inr tt).
Proof.
  intros Hk Hn Hd. rewrite script_with_upload with (k := k) by exact Hk.
  unfold bind at 1.
  rewrite upload_extracted with (doc := doc);
    [|apply started_has_key
     |unfold started; cbn [state]; now rewrite needs_extraction_started
     |exact Hd].
  unfold bind, show. cbn [state api screen started ret].
  rewrite <- !app_assoc. reflexivity.
Qed.

(** One run with an upload and no click, when the text is kept. *)
Lemma run_keeps (name : str) (content : list Byte.byte) (a : runtime World)
  (k : str) :
  secrets (py "OPENAI_API_KEY") = Some k ->
  needs_extraction (state a) (fst (splitext name)) = false ->
  script fitz_open get_text remote isfile fpdf secrets (Some (name, content))
    false a =
  ({| state := state a; api := api a;
      screen := screen a ++ page_head ++ [Button (py "Generate Report")] |},
   inr tt).
Proof.
  intros Hk Hn. rewrite script_with_upload with (k := k) by exact Hk.
  unfold bind at 1.
  rewrite upload_kept;
    [|apply started_has_key
     |unfold started; cbn [state]; now rewrite needs_extraction_started].
  unfold bind, show. cbn [state api screen started ret].
  rewrite (kept_state _ _ Hn), <- !app_assoc. reflexivity.
Qed.

Lemma same_state_needs_no_extraction (name t : str) (st : session_state) :
  st = {| current_movie := Some (Some (fst (splitext name)));
          screenplay_text := Some t |} ->
  needs_extraction st (fst (splitext name)) = false.
Proof.
  intros ->. unfold needs_extraction.
  cbn [screenplay_text current_movie differs].
  assert (E : str_eqb (fst (splitext name)) (fst (splitext name)) = true)
    by now apply str_eqb_eq.
  now rewrite E.
Qed.

Lemma same_state_run (name : str) (content : list Byte.byte) (a : runtime World)
  (k t : str) :
  secrets (py "OPENAI_API_KEY") = Some k ->
  state a = {| current_movie := Some (Some (fst (splitext name)));
               screenplay_text := Some t |} ->
  script fitz_open get_text remote isfile fpdf secrets (Some (name, content))
    false a =
  ({| state := state a; api := api a;
      screen := screen a ++ page_head ++ [Button (py "Generate Report")] |},
   inr tt).
Proof.
  intros Hk Hs. apply run_keeps with (k := k); [exact Hk|].
  now apply same_state_needs_no_extraction with (t := t).
Qed.

(** A run with a click is the run without it, followed by the report
    generation if the upload step did not fail. *)
Lemma run_click (name : str) (content : list Byte.byte) (a : runtime World)
  (k : str) :
  secrets (py "OPENAI_API_KEY") = Some k ->
  script fitz_open get_text remote isfile fpdf secrets (Some (name, content))
    true a =
  match script fitz_open get_text remote isfile fpdf secrets
          (Some (name, content)) false a with
  | (a', inr _) => @generate_report World remote isfile fpdf (fst (splitext name)) a'
  | (a', inl e) => (a', inl e)
  end.
Proof.
  intros Hk. rewrite !script_with_upload with (k := k) by exact Hk.
  unfold bind.
  destruct (extract_on_upload _ _ _ _ _) as [s [e|[]]]; reflexivity.
Qed.

Lemma written_results_view (d : dict) :
  written (results_view d)
  = py "**Analysis Results**" :: py "" ::
    flat_map (fun hb => [py "**" ++ fst hb ++ py ":**"; snd hb; py ""])
      (combine (keys d) (List.map (fun e => clean_markdown (snd e)) d)).
Proof.
  unfold results_view. cbn [written]. do 2 f_equal.
  induction d as [|[h b] d IH]; [reflexivity|].
  cbn [flat_map app written keys List.map combine fst snd].
  do 3 f_equal. exact IH.
Qed.

Lemma written_app (p q : list ui) : written (p ++ q) = written p ++ written q.
Proof.
  induction p as [|e p IH]; [reflexivity|].
  destruct e; cbn [app written]; now rewrite ?IH.
Qed.

Lemma answered_truthy (w w' : World) (t : str) (resps : list str) :
  serve remote w (requests (prompts t)) = (w', List.map inr resps) ->
  truthy (combine categories resps) = true.
Proof.
  intros H. apply serve_length in H. rewrite length_map in H.
  destruct resps; [discriminate|reflexivity].
Qed.

(** One run with an upload whose file cannot be parsed. *)
Lemma run_fails (name : str) (content : list Byte.byte) (e : exn) (g : bool)
  (a : runtime World) (k : str) :
  secrets (py "OPENAI_API_KEY") = Some k ->
  needs_extraction (state a) (fst (splitext name)) = true ->
  fitz_open content = inl e ->
  script fitz_open get_text remote isfile fpdf secrets (Some (name, content)) g a =
  ({| state := with_movie_key (state a); api := api a;
      screen := screen a ++ page_head
                ++ [Spinner (py "Extracting screenplay...")] |},
   inl e).
Proof.
  intros Hk Hn Hd. rewrite script_with_upload with (k := k) by exact Hk.
  unfold bind at 1.
  rewrite upload_failed with (e := e);
    [|apply started_has_key
     |unfold started; cbn [state]; now rewrite needs_extraction_started
     |exact Hd].
  unfold started. cbn [state api screen]. now rewrite <- app_assoc.
Qed.

(** [generate_report] does not touch the session state. *)
Lemma generate_keeps_state (movie : str) (a : runtime World) :
  state (fst (@generate_report World remote isfile fpdf movie a)) = state a.
Proof.
  destruct (screenplay_text (state a)) as [t|] eqn:Et.
  - rewrite generate_unfold with (t := t) by exact Et. cbn zeta.
    destruct (get_all_analyses_single remote t (api a))
      as [s [e|all_results]]; [reflexivity|].
    destruct (truthy all_results); [|reflexivity].
    now destruct (snd (create_pdf_report isfile fpdf all_results)).
  - unfold generate_report.
    unfold bind at 1, show at 1. cbn [state api screen].
    unfold bind at 1, read_screenplay_text, bind at 1, get_state at 1.
    cbn [state api screen]. rewrite Et. reflexivity.
Qed.

(** A run without a click does not touch the remote service. *)
Lemma run_keeps_api (up : option (str * list Byte.byte)) (a : runtime World) :
  api (fst (script fitz_open get_text remote isfile fpdf secrets up false a))
  = api a.
Proof.
  destruct (secrets (py "OPENAI_API_KEY")) as [k|] eqn:Hk;
    [|now rewrite script_without_key].
  destruct up as [[name content]|];
    [|now rewrite run_without_upload with (k := k)].
  destruct (needs_extraction (state a) (fst (splitext name))) eqn:Hn;
    [|now rewrite run_keeps with (k := k)].
  destruct (fitz_open content) as [e|doc] eqn:Hd.
  - now rewrite run_fails with (k := k) (e := e).
  - now rewrite run_extracts with (k := k) (doc := doc).
Qed.

(** The state a run without a click leaves when it ends normally. *)
Lemma run_records (name : str) (content : list Byte.byte) (a : runtime World) :
  snd (script fitz_open get_text remote isfile fpdf secrets (Some (name, content))
         false a) = inr tt ->
  exists t,
    state (fst (script fitz_open get_text remote isfile fpdf secrets
                  (Some (name, content)) false a))
    = {| current_movie := Some (Some (fst (splitext name)));
         screenplay_text := Some t |}.
Proof.
  destruct (secrets (py "OPENAI_API_KEY")) as [k|] eqn:Hk;
    [|now rewrite script_without_key].
  destruct (needs_extraction (state a) (fst (splitext name))) eqn:Hn.
  - destruct (fitz_open content) as [e|doc] eqn:Hd.
    + now rewrite run_fails with (k := k) (e := e).
    + rewrite run_extracts with (k := k) (doc := doc) by assumption.
      intros _. now eexists.
  - rewrite run_keeps with (k := k) by assumption. intros _. cbn [fst state].
    unfold needs_extraction in Hn.
    destruct (state a) as [m [t|]]; cbn [screenplay_text current_movie] in Hn;
      [|discriminate].
    destruct m as [[m|]|]; cbn [differs] in Hn; try discriminate.
    apply negb_false_iff, str_eqb_eq in Hn. subst m. now exists t.
Qed.

(** A click with the text of the current movie in the session and a
    service that answers: the run up to the report, and how it ends. *)
Lemma click_run (name : str) (content : list Byte.byte) (a : runtime World)
  (k t : str) (w' : World) (resps : list str) :
  secrets (py "OPENAI_API_KEY") = Some k ->
  state a = {| current_movie := Some (Some (fst (splitext name)));
               screenplay_text := Some t |} ->
  serve remote (world (api a)) (requests (prompts t))
  = (w', List.map inr resps) ->
  script fitz_open get_text remote isfile fpdf secrets (Some (name, content))
    true a =
  let shown :=
    screen a ++ page_head
    ++ [ Button (py "Generate Report");
         Spinner (py "Analyzing screenplay" ++ [ellipsis]) ]
    ++ results_view (combine categories resps) in
  let s := {| world := w'; sent := sent (api a) ++ requests (prompts t) |} in
  match snd (create_pdf_report isfile fpdf (combine categories resps)) with
  | inl e => ({| state := state a; api := s; screen := shown |}, inl e)
  | inr pdf_file =>
      ({| state := state a; api := s;
          screen :=
            shown
            ++ [ Success (py "Analysis complete!");
                 DownloadButton (py "Download Analysis Report as PDF")
                   pdf_file (fst (splitext name) ++ py "-report.pdf")
                   (py "application/pdf") ] |},
       inr tt)
  end.
Proof.
  intros Hk Hs Hserve.
  rewrite run_click with (k := k) by exact Hk.
  rewrite (same_state_run name content a Hk Hs).
  rewrite generate_unfold with (t := t) by (cbn [state]; now rewrite Hs).
  cbn [state api screen]. destruct (api a) as [w tr] eqn:Ea.
  cbn [world sent] in *.
  rewrite (get_all_answered remote t w tr resps Hserve).
  rewrite (answered_truthy _ _ _ Hserve). cbn zeta.
  destruct (snd (create_pdf_report isfile fpdf (combine categories resps)));
    rewrite <- !app_assoc; reflexivity.
Qed.

(** X13. Without the API key in the secret store a run stops at line 17:
    nothing is shown, nothing is extracted, no request is sent. *)
Theorem script_needs_api_key (up : option (str * list Byte.byte)) (g : bool)
  (a : runtime World) :
  secrets (py "OPENAI_API_KEY") = None ->
  script fitz_open get_text remote isfile fpdf secrets up g a =
  ({| state := with_movie_key (state a); api := api a;
      screen := screen a ++ [PageConfig (py "RAIN-CHECK")] |},
   inl (key_error (py "OPENAI_API_KEY"))).
Proof. apply script_without_key. Qed.

(** X14. Without an uploaded file a run shows the page head and the hint
    and does nothing else, whatever the button says: the stored text and
    movie stay, no request is sent. *)
Theorem script_without_upload (g : bool) (a : runtime World) (k : str) :
  secrets (py "OPENAI_API_KEY") = Some k ->
  script fitz_open get_text remote isfile fpdf secrets None g a =
  ({| state := with_movie_key (state a); api := api a;
      screen :=
        screen a ++ page_head
        ++ [Info (py "Please upload a PDF screenplay to begin analysis.")] |},
   inr tt).
Proof. apply run_without_upload. Qed.

(** X15. Two uploads in a row with different movie names: after the second
    run the session holds the second movie and the text of the second
    file only, whatever it held before. *)
Theorem second_upload_replaces_text
  (name1 name2 : str) (content1 content2 : list Byte.byte)
  (doc1 doc2 : list Page) (a : runtime World) (k : str) :
  secrets (py "OPENAI_API_KEY") = Some k ->
  fitz_open content1 = inr doc1 ->
  fitz_open content2 = inr doc2 ->
  str_eqb (fst (splitext name1)) (fst (splitext name2)) = false ->
  let a1 := fst (script fitz_open get_text remote isfile fpdf secrets
                   (Some (name1, content1)) false a) in
  let a2 := fst (script fitz_open get_text remote isfile fpdf secrets
                   (Some (name2, content2)) false a1) in
  state a2 = {| current_movie := Some (Some (fst (splitext name2)));
                screenplay_text :=
                  Some (List.concat (List.map get_text doc2)) |}
  /\ api a2 = api a.
Proof.
  intros Hk H1 H2 Hne a1 a2.
  assert (Hm : exists t, state a1 = {| current_movie :=
                                         Some (Some (fst (splitext name1)));
                                       screenplay_text := Some t |}
                         /\ api a1 = api a).
  { subst a1.
    destruct (needs_extraction (state a) (fst (splitext name1))) eqn:E.
    - rewrite run_extracts with (k := k) (doc := doc1) by assumption.
      eexists. split; reflexivity.
    - rewrite run_keeps with (k := k) by assumption. cbn [fst state api].
      unfold needs_extraction in E.
      destruct (state a) as [cm st]. cbn [screenplay_text current_movie] in E.
      destruct st as [t|]; [|discriminate].
      destruct cm as [[m|]|]; try discriminate.
      cbn [differs] in E. apply negb_false_iff, str_eqb_eq in E. subst m.
      eexists. split; reflexivity. }
  destruct Hm as (t & Hs & Ha). subst a2.
  rewrite run_extracts with (k := k) (doc := doc2); try assumption.
  - cbn [fst state api]. split; [reflexivity|exact Ha].
  - rewrite Hs. unfold needs_extraction. cbn [screenplay_text current_movie differs].
    now rewrite Hne.
Qed.

(** X16. An upload under the movie name the session already holds is not
    read again: whatever the file contains, parseable or not, the stored
    text stays and nothing is extracted. *)
Theorem same_name_upload_keeps_text
  (name : str) (content : list Byte.byte) (a : runtime World) (k t : str) :
  secrets (py "OPENAI_API_KEY") = Some k ->
  state a = {| current_movie := Some (Some (fst (splitext name)));
               screenplay_text := Some t |} ->
  script fitz_open get_text remote isfile fpdf secrets (Some (name, content))
    false a =
  ({| state := state a; api := api a;
      screen := screen a ++ page_head ++ [Button (py "Generate Report")] |},
   inr tt).
Proof.
  intros Hk Hs. now apply same_state_run with (k := k) (t := t).
Qed.

(** X17. If the uploaded file cannot be parsed, the run ends with the
    parser's exception before the button is shown: the stored text and
    movie are as before, and no request is sent even if the button was
    clicked. *)
Theorem script_extraction_failure
  (name : str) (content : list Byte.byte) (e : exn) (g : bool)
  (a : runtime World) (k : str) :
  secrets (py "OPENAI_API_KEY") = Some k ->
  needs_extraction (state a) (fst (splitext name)) = true ->
  fitz_open content = inl e ->
  script fitz_open get_text remote isfile fpdf secrets (Some (name, content)) g a =
  ({| state := with_movie_key (state a); api := api a;
      screen := screen a ++ page_head
                ++ [Spinner (py "Extracting screenplay...")] |},
   inl e).
Proof. apply run_fails. Qed.

(** X18. A click on the button with the text of the current movie in the
    session, a service that answers, the fonts in place and a library that
    raises on none of the calls of the report: the nine requests for that
    text are sent, the nine sections are displayed, and a download button
    offers the report built from the answers under the movie name followed
    by [-report.pdf]. The session state is as before. *)
Theorem script_generates_report
  (name : str) (content : list Byte.byte) (a : runtime World) (k t : str)
  (w' : World) (resps : list str) :
  secrets (py "OPENAI_API_KEY") = Some k ->
  state a = {| current_movie := Some (Some (fst (splitext name)));
               screenplay_text := Some t |} ->
  serve remote (world (api a)) (requests (prompts t))
  = (w', List.map inr resps) ->
  isfile font_regular = true -> isfile font_bold = true ->
  accepts fpdf (combine categories resps) = true ->
  exists pdf_file,
    snd (create_pdf_report isfile fpdf (combine categories resps)) = inr pdf_file
    /\ script fitz_open get_text remote isfile fpdf secrets (Some (name, content))
         true a =
       ({| state := state a;
           api := {| world := w';
                     sent := sent (api a) ++ requests (prompts t) |};
           screen :=
             screen a ++ page_head
             ++ [ Button (py "Generate Report");
                  Spinner (py "Analyzing screenplay" ++ [ellipsis]) ]
             ++ results_view (combine categories resps)
             ++ [ Success (py "Analysis complete!");
                  DownloadButton (py "Download Analysis Report as PDF")
                    pdf_file (fst (splitext name) ++ py "-report.pdf")
                    (py "application/pdf") ] |},
        inr tt).
Proof.
  intros Hk Hs Hserve Hr Hb Ha.
  rewrite (@click_run name content a k t w' resps Hk Hs Hserve). cbn zeta.
  rewrite (report_accepted isfile fpdf _ Hr Hb Ha).
  eexists. split; [reflexivity|].
  rewrite <- !app_assoc. reflexivity.
Qed.

(** X19. A click when a remote call fails: the run ends with that
    exception after the calls up to the failed one; no section is
    displayed, no report is built, no download is offered, and the session
    state is as before. *)
Theorem script_stops_when_a_call_fails
  (name : str) (content : list Byte.byte) (a : runtime World) (k t : str)
  (pre post : list (str * str)) (section prompt : str)
  (w1 w2 : World) (resps : list str) (e : exn) :
  secrets (py "OPENAI_API_KEY") = Some k ->
  state a = {| current_movie := Some (Some (fst (splitext name)));
               screenplay_text := Some t |} ->
  prompts t = pre ++ (section, prompt) :: post ->
  serve remote (world (api a)) (requests pre) = (w1, List.map inr resps) ->
  remote w1 (batch_request prompt) = (w2, inl e) ->
  script fitz_open get_text remote isfile fpdf secrets (Some (name, content))
    true a =
  ({| state := state a;
      api := {| world := w2;
                sent := sent (api a) ++ requests pre
                        ++ [batch_request prompt] |};
      screen :=
        screen a ++ page_head
        ++ [ Button (py "Generate Report");
             Spinner (py "Analyzing screenplay" ++ [ellipsis]) ] |},
   inl e).
Proof.
  intros Hk Hs Hp Hserve Hf.
  rewrite run_click with (k := k) by exact Hk.
  rewrite (same_state_run name content a Hk Hs).
  rewrite generate_unfold with (t := t) by (cbn [state]; now rewrite Hs).
  cbn [state api screen]. destruct (api a) as [w tr] eqn:Ea.
  cbn [world sent] in *.
  rewrite get_all_unfold. unfold items. rewrite Hp.
  rewrite (@loop_failed World remote pre post section prompt []
             w w1 w2 tr resps e Hserve Hf).
  rewrite <- !app_assoc. reflexivity.
Qed.

(** X20. A click when the service answers but a font file is missing: the
    nine requests are sent and the nine sections are displayed, then the
    run ends with [FileNotFoundError]; no download is offered. *)
Theorem script_displays_then_fails_without_fonts
  (name : str) (content : list Byte.byte) (a : runtime World) (k t : str)
  (w' : World) (resps : list str) :
  secrets (py "OPENAI_API_KEY") = Some k ->
  state a = {| current_movie := Some (Some (fst (splitext name)));
               screenplay_text := Some t |} ->
  serve remote (world (api a)) (requests (prompts t))
  = (w', List.map inr resps) ->
  isfile font_regular = false \/ isfile font_bold = false ->
  script fitz_open get_text remote isfile fpdf secrets (Some (name, content))
    true a =
  ({| state := state a;
      api := {| world := w';
                sent := sent (api a) ++ requests (prompts t) |};
      screen :=
        screen a ++ page_head
        ++ [ Button (py "Generate Report");
             Spinner (py "Analyzing screenplay" ++ [ellipsis]) ]
        ++ results_view (combine categories resps) |},
   inl (FileNotFoundError font_error)).
Proof.
  intros Hk Hs Hserve Hfont.
  rewrite (@click_run name content a k t w' resps Hk Hs Hserve). cbn zeta.
  rewrite (report_without_fonts isfile fpdf _ Hfont). reflexivity.
Qed.

(** X21. An upload of a new movie and a click in the same run: the text
    is extracted and stored first, and the nine requests are built from
    the new text, not from the text the session held; this does not depend
    on how the report generation ends. *)
Theorem script_analyses_the_new_text
  (name : str) (content : list Byte.byte) (doc : list Page)
  (a : runtime World) (k : str) (w' : World) (resps : list str) :
  secrets (py "OPENAI_API_KEY") = Some k ->
  needs_extraction (state a) (fst (splitext name)) = true ->
  fitz_open content = inr doc ->
  serve remote (world (api a))
    (requests (prompts (List.concat (List.map get_text doc))))
  = (w', List.map inr resps) ->
  let a' := fst (script fitz_open get_text remote isfile fpdf secrets
                   (Some (name, content)) true a) in
  state a' = {| current_movie := Some (Some (fst (splitext name)));
                screenplay_text :=
                  Some (List.concat (List.map get_text doc)) |}
  /\ api a' = {| world := w';
                 sent := sent (api a)
                         ++ requests
                              (prompts (List.concat (List.map get_text doc)))
              |}.
Proof.
  intros Hk Hn Hd Hserve a'. subst a'.
  rewrite run_click with (k := k) by exact Hk.
  rewrite run_extracts with (k := k) (doc := doc) by assumption.
  rewrite generate_unfold
    with (t := List.concat (List.map get_text doc)) by reflexivity.
  cbn [state api screen]. destruct (api a) as [w tr] eqn:Ea.
  cbn [world sent] in *.
  rewrite (get_all_answered remote _ w tr resps Hserve).
  rewrite (answered_truthy _ _ _ Hserve).
  destruct (snd (create_pdf_report isfile fpdf (combine categories resps)));
    cbn [fst state api]; split; reflexivity.
Qed.

(** X22. What is written on the page and what is in the report agree:
    when a click with the text of the current movie in the session and a
    service that answers ends normally, the run ends with the download
    button, and the texts written before it are the caption, an empty line
    and, for every section of the document offered, in order, its heading
    in bold markup, its body text and an empty line. *)
Theorem screen_and_report_agree
  (name : str) (content : list Byte.byte) (a : runtime World) (k t : str)
  (w' : World) (resps : list str) :
  secrets (py "OPENAI_API_KEY") = Some k ->
  state a = {| current_movie := Some (Some (fst (splitext name)));
               screenplay_text := Some t |} ->
  serve remote (world (api a)) (requests (prompts t))
  = (w', List.map inr resps) ->
  snd (script fitz_open get_text remote isfile fpdf secrets
         (Some (name, content)) true a) = inr tt ->
  exists (page : list ui) (label file_name mime : str) (pdf_file : BytesIO),
    screen (fst (script fitz_open get_text remote isfile fpdf secrets
                   (Some (name, content)) true a))
    = screen a ++ page
      ++ [DownloadButton label pdf_file file_name mime]
    /\ written page
       = py "**Analysis Results**" :: py "" ::
         flat_map (fun hb => [py "**" ++ fst hb ++ py ":**"; snd hb; py ""])
           (combine (tl (cell_texts (document pdf_file)))
              (multi_cell_texts (document pdf_file))).
Proof.
  intros Hk Hs Hserve.
  rewrite (@click_run name content a k t w' resps Hk Hs Hserve). cbn zeta.
  destruct (snd (create_pdf_report isfile fpdf (combine categories resps)))
    as [e|pdf_file] eqn:R; [discriminate|]. intros _.
  apply report_returned in R. subst pdf_file. cbn [fst screen].
  exists (page_head
          ++ [ Button (py "Generate Report");
               Spinner (py "Analyzing screenplay" ++ [ellipsis]) ]
          ++ results_view (combine categories resps)
          ++ [Success (py "Analysis complete!")]).
  do 4 eexists. split.
  - rewrite <- !app_assoc. reflexivity.
  - rewrite !written_app, written_results_view. cbn [document].
    rewrite cell_texts_report, multi_cell_texts_report.
    cbn [page_head written List.app tl]. now rewrite app_nil_r.
Qed.

(** X23. Requests are sent on a click only: a run without a click, and a
    run without an uploaded file, leave the remote service and the list of
    requests sent as they were, whatever the session, the file and the
    environment are. *)
Theorem script_sends_requests_only_on_click
  (up : option (str * list Byte.byte)) (g : bool) (a : runtime World) :
  api (fst (script fitz_open get_text remote isfile fpdf secrets up false a))
  = api a
  /\ api (fst (script fitz_open get_text remote isfile fpdf secrets None g a))
     = api a.
Proof.
  split; [apply run_keeps_api|].
  destruct (secrets (py "OPENAI_API_KEY")) as [k|] eqn:Hk;
    [now rewrite run_without_upload with (k := k)
    |now rewrite script_without_key].
Qed.

(** X24. A click does not change what the session stores: the session
    state after a run with a click is the one after the same run without
    it, also when the analysis or the report fails. *)
Theorem click_keeps_session_state
  (up : option (str * list Byte.byte)) (a : runtime World) :
  state (fst (script fitz_open get_text remote isfile fpdf secrets up true a))
  = state (fst (script fitz_open get_text remote isfile fpdf secrets up false a)).
Proof.
  destruct (secrets (py "OPENAI_API_KEY")) as [k|] eqn:Hk;
    [|now rewrite !script_without_key].
  destruct up as [[name content]|];
    [|now rewrite !run_without_upload with (k := k)].
  rewrite run_click with (k := k) by exact Hk.
  destruct (script fitz_open get_text remote isfile fpdf secrets
              (Some (name, content)) false a) as [a' [e|u]];
    [reflexivity|apply generate_keeps_state].
Qed.

(** X25. After a run with an uploaded file that ends normally, click or
    not, the session stores the name of that file without its extension
    as the current movie, together with a text. *)
Theorem script_records_the_upload
  (name : str) (content : list Byte.byte) (g : bool) (a : runtime World) :
  snd (script fitz_open get_text remote isfile fpdf secrets (Some (name, content))
         g a) = inr tt ->
  exists t,
    state (fst (script fitz_open get_text remote isfile fpdf secrets
                  (Some (name, content)) g a))
    = {| current_movie := Some (Some (fst (splitext name)));
         screenplay_text := Some t |}.
Proof.
  destruct g; [|apply run_records].
  destruct (secrets (py "OPENAI_API_KEY")) as [k|] eqn:Hk;
    [|now rewrite script_without_key].
  rewrite run_click with (k := k) by exact Hk.
  pose proof (run_records name content a) as R.
  destruct (script fitz_open get_text remote isfile fpdf secrets
              (Some (name, content)) false a) as [a' [e|[]]];
    [discriminate|].
  intros _. rewrite generate_keeps_state. now apply R.
Qed.

End ScriptTheorems.

Lemma script_needs_api_key_witness :
  Samples.without_api_key (py "OPENAI_API_KEY") = None /\
  script Samples.open_upload (fun p => p) Samples.answering Samples.all_files Samples.reliable
    Samples.without_api_key (Some (py "Alpha.pdf", Samples.alpha_bytes)) true
    Samples.new_session
  = ({| state := with_movie_key (state Samples.new_session);
        api := api Samples.new_session;
        screen := screen Samples.new_session
                  ++ [PageConfig (py "RAIN-CHECK")] |},
     inl (key_error (py "OPENAI_API_KEY"))).
Proof.
  split; [reflexivity|].
  exact (@script_needs_api_key str Samples.open_upload (fun p => p) nat
           Samples.answering Samples.all_files Samples.reliable Samples.without_api_key
           (Some (py "Alpha.pdf", Samples.alpha_bytes)) true
           Samples.new_session eq_refl).
Defined.

Lemma script_without_upload_witness :
  Samples.with_api_key (py "OPENAI_API_KEY") = Some (py "sk-sample") /\
  script Samples.open_upload (fun p => p) Samples.answering Samples.all_files Samples.reliable
    Samples.with_api_key None true Samples.alpha_session
  = ({| state := with_movie_key (state Samples.alpha_session);
        api := api Samples.alpha_session;
        screen :=
          screen Samples.alpha_session ++ page_head
          ++ [Info (py "Please upload a PDF screenplay to begin analysis.")]
     |}, inr tt).
Proof.
  split; [reflexivity|].
  exact (@script_without_upload str Samples.open_upload (fun p => p) nat
           Samples.answering Samples.all_files Samples.reliable Samples.with_api_key
           true Samples.alpha_session (py "sk-sample") eq_refl).
Defined.

Lemma second_upload_replaces_text_witness :
  Samples.open_upload Samples.alpha_bytes = inr [py "ALPHA"] /\
  Samples.open_upload Samples.beta_bytes = inr [py "BETA"; py " II"] /\
  str_eqb (fst (splitext (py "Alpha.pdf"))) (fst (splitext (py "Beta.pdf")))
  = false /\
  let a1 := fst (script Samples.open_upload (fun p => p) Samples.answering
                   Samples.all_files Samples.reliable Samples.with_api_key
                   (Some (py "Alpha.pdf", Samples.alpha_bytes)) false
                   Samples.new_session) in
  let a2 := fst (script Samples.open_upload (fun p => p) Samples.answering
                   Samples.all_files Samples.reliable Samples.with_api_key
                   (Some (py "Beta.pdf", Samples.beta_bytes)) false a1) in
  state a2 = {| current_movie := Some (Some (fst (splitext (py "Beta.pdf"))));
                screenplay_text :=
                  Some (List.concat
                          (List.map (fun p => p) [py "BETA"; py " II"])) |}
  /\ api a2 = api Samples.new_session.
Proof.
  split; [reflexivity|]. split; [reflexivity|]. split; [reflexivity|].
  exact (@second_upload_replaces_text str Samples.open_upload (fun p => p)
           nat Samples.answering Samples.all_files Samples.reliable Samples.with_api_key
           (py "Alpha.pdf") (py "Beta.pdf")
           Samples.alpha_bytes Samples.beta_bytes
           [py "ALPHA"] [py "BETA"; py " II"]
           Samples.new_session (py "sk-sample")
           eq_refl eq_refl eq_refl eq_refl).
Defined.

Lemma same_name_upload_keeps_text_witness :
  state Samples.alpha_session
  = {| current_movie := Some (Some (fst (splitext (py "Alpha.pdf"))));
       screenplay_text := Some (py "ALPHA") |} /\
  script Samples.open_upload (fun p => p) Samples.answering Samples.all_files Samples.reliable
    Samples.with_api_key (Some (py "Alpha.pdf", Samples.beta_bytes)) false
    Samples.alpha_session
  = ({| state := state Samples.alpha_session;
        api := api Samples.alpha_session;
        screen := screen Samples.alpha_session ++ page_head
                  ++ [Button (py "Generate Report")] |},
     inr tt).
Proof.
  split; [reflexivity|].
  exact (@same_name_upload_keeps_text str Samples.open_upload (fun p => p)
           nat Samples.answering Samples.all_files Samples.reliable Samples.with_api_key
           (py "Alpha.pdf") Samples.beta_bytes Samples.alpha_session
           (py "sk-sample") (py "ALPHA") eq_refl eq_refl).
Defined.

Lemma script_extraction_failure_witness :
  needs_extraction (state Samples.alpha_session)
    (fst (splitext (py "Broken.pdf"))) = true /\
  Samples.open_upload [] = inl Samples.parse_error /\
  script Samples.open_upload (fun p => p) Samples.answering Samples.all_files Samples.reliable
    Samples.with_api_key (Some (py "Broken.pdf", [])) true
    Samples.alpha_session
  = ({| state := with_movie_key (state Samples.alpha_session);
        api := api Samples.alpha_session;
        screen := screen Samples.alpha_session ++ page_head
                  ++ [Spinner (py "Extracting screenplay...")] |},
     inl Samples.parse_error).
Proof.
  split; [reflexivity|]. split; [reflexivity|].
  exact (@script_extraction_failure str Samples.open_upload (fun p => p)
           nat Samples.answering Samples.all_files Samples.reliable Samples.with_api_key
           (py "Broken.pdf") [] Samples.parse_error true
           Samples.alpha_session (py "sk-sample") eq_refl eq_refl eq_refl).
Defined.

Lemma script_generates_report_witness :
  serve Samples.answering 0 (requests (prompts (py "ALPHA")))
  = (9, List.map inr (repeat (py "An answer.") 9)) /\
  accepts Samples.reliable (combine categories (repeat (py "An answer.") 9))
  = true /\
  exists pdf_file,
    snd (create_pdf_report Samples.all_files Samples.reliable
           (combine categories (repeat (py "An answer.") 9))) = inr pdf_file
    /\ script Samples.open_upload (fun p => p) Samples.answering
         Samples.all_files Samples.reliable Samples.with_api_key
         (Some (py "Alpha.pdf", Samples.alpha_bytes)) true
         Samples.alpha_session =
       ({| state := state Samples.alpha_session;
           api := {| world := 9;
                     sent := sent (api Samples.alpha_session)
                             ++ requests (prompts (py "ALPHA")) |};
           screen :=
             screen Samples.alpha_session ++ page_head
             ++ [ Button (py "Generate Report");
                  Spinner (py "Analyzing screenplay" ++ [ellipsis]) ]
             ++ results_view (combine categories (repeat (py "An answer.") 9))
             ++ [ Success (py "Analysis complete!");
                  DownloadButton (py "Download Analysis Report as PDF")
                    pdf_file
                    (fst (splitext (py "Alpha.pdf")) ++ py "-report.pdf")
                    (py "application/pdf") ] |},
        inr tt).
Proof.
  assert (H : serve Samples.answering 0 (requests (prompts (py "ALPHA")))
              = (9, List.map inr (repeat (py "An answer.") 9)))
    by (vm_compute; reflexivity).
  assert (Ha : accepts Samples.reliable
                 (combine categories (repeat (py "An answer.") 9)) = true)
    by (vm_compute; reflexivity).
  split; [exact H|]. split; [exact Ha|].
  exact (@script_generates_report str Samples.open_upload (fun p => p)
           nat Samples.answering Samples.all_files Samples.reliable
           Samples.with_api_key
           (py "Alpha.pdf") Samples.alpha_bytes Samples.alpha_session
           (py "sk-sample") (py "ALPHA") 9 (repeat (py "An answer.") 9)
           eq_refl eq_refl H eq_refl eq_refl Ha).
Defined.

Lemma script_stops_when_a_call_fails_witness :
  let logline :=
    (py "Logline",
     instr_logline ++ screenplay_open ++ py "ALPHA" ++ dq3) in
  let genre := instr_genre ++ screenplay_open ++ py "ALPHA" ++ dq3 in
  Samples.failing_second 1 (batch_request genre)
  = (2, inl Samples.transport_error) /\
  script Samples.open_upload (fun p => p) Samples.failing_second
    Samples.all_files Samples.reliable Samples.with_api_key
    (Some (py "Alpha.pdf", Samples.alpha_bytes)) true Samples.alpha_session
  = ({| state := state Samples.alpha_session;
        api := {| world := 2;
                  sent := sent (api Samples.alpha_session)
                          ++ requests [logline] ++ [batch_request genre] |};
        screen :=
          screen Samples.alpha_session ++ page_head
          ++ [ Button (py "Generate Report");
               Spinner (py "Analyzing screenplay" ++ [ellipsis]) ] |},
     inl Samples.transport_error).
Proof.
  intros logline genre. split; [reflexivity|].
  exact (@script_stops_when_a_call_fails str Samples.open_upload
           (fun p => p) nat Samples.failing_second Samples.all_files Samples.reliable
           Samples.with_api_key (py "Alpha.pdf") Samples.alpha_bytes
           Samples.alpha_session (py "sk-sample") (py "ALPHA")
           [logline] (skipn 2 (prompts (py "ALPHA"))) (py "Genre") genre
           1 2 [py "An answer."] Samples.transport_error
           eq_refl eq_refl eq_refl eq_refl eq_refl).
Defined.

Lemma script_displays_then_fails_without_fonts_witness :
  serve Samples.answering 0 (requests (prompts (py "ALPHA")))
  = (9, List.map inr (repeat (py "An answer.") 9)) /\
  (Samples.only_regular font_regular = false
   \/ Samples.only_regular font_bold = false) /\
  script Samples.open_upload (fun p => p) Samples.answering
    Samples.only_regular Samples.reliable Samples.with_api_key
    (Some (py "Alpha.pdf", Samples.alpha_bytes)) true Samples.alpha_session
  = ({| state := state Samples.alpha_session;
        api := {| world := 9;
                  sent := sent (api Samples.alpha_session)
                          ++ requests (prompts (py "ALPHA")) |};
        screen :=
          screen Samples.alpha_session ++ page_head
          ++ [ Button (py "Generate Report");
               Spinner (py "Analyzing screenplay" ++ [ellipsis]) ]
          ++ results_view (combine categories (repeat (py "An answer.") 9))
     |},
     inl (FileNotFoundError font_error)).
Proof.
  assert (H : serve Samples.answering 0 (requests (prompts (py "ALPHA")))
              = (9, List.map inr (repeat (py "An answer.") 9)))
    by (vm_compute; reflexivity).
  assert (F : Samples.only_regular font_regular = false
              \/ Samples.only_regular font_bold = false)
    by (right; reflexivity).
  split; [exact H|]. split; [exact F|].
  exact (@script_displays_then_fails_without_fonts str Samples.open_upload
           (fun p => p) nat Samples.answering Samples.only_regular Samples.reliable
           Samples.with_api_key (py "Alpha.pdf") Samples.alpha_bytes
           Samples.alpha_session (py "sk-sample") (py "ALPHA") 9
           (repeat (py "An answer.") 9) eq_refl eq_refl H F).
Defined.

Lemma script_analyses_the_new_text_witness :
  needs_extraction (state Samples.alpha_session)
    (fst (splitext (py "Beta.pdf"))) = true /\
  Samples.open_upload Samples.beta_bytes = inr [py "BETA"; py " II"] /\
  serve Samples.answering 0 (requests (prompts (py "BETA II")))
  = (9, List.map inr (repeat (py "An answer.") 9)) /\
  let a' := fst (script Samples.open_upload (fun p => p) Samples.answering
                   Samples.all_files Samples.unloadable_fonts
                   Samples.with_api_key
                   (Some (py "Beta.pdf", Samples.beta_bytes)) true
                   Samples.alpha_session) in
  state a' = {| current_movie := Some (Some (fst (splitext (py "Beta.pdf"))));
                screenplay_text :=
                  Some (List.concat
                          (List.map (fun p => p) [py "BETA"; py " II"])) |}
  /\ api a' = {| world := 9;
                 sent := sent (api Samples.alpha_session)
                         ++ requests
                              (prompts
                                 (List.concat
                                    (List.map (fun p => p)
                                       [py "BETA"; py " II"]))) |}.
Proof.
  assert (H : serve Samples.answering 0 (requests (prompts (py "BETA II")))
              = (9, List.map inr (repeat (py "An answer.") 9)))
    by (vm_compute; reflexivity).
  split; [reflexivity|]. split; [reflexivity|]. split; [exact H|].
  exact (@script_analyses_the_new_text str Samples.open_upload (fun p => p)
           nat Samples.answering Samples.all_files Samples.unloadable_fonts
           Samples.with_api_key
           (py "Beta.pdf") Samples.beta_bytes [py "BETA"; py " II"]
           Samples.alpha_session (py "sk-sample") 9
           (repeat (py "An answer.") 9)
           eq_refl eq_refl eq_refl H).
Defined.

Lemma screen_and_report_agree_witness :
  serve Samples.answering 0 (requests (prompts (py "ALPHA")))
  = (9, List.map inr (repeat (py "An answer.") 9)) /\
  snd (script Samples.open_upload (fun p => p) Samples.answering
         Samples.all_files Samples.reliable Samples.with_api_key
         (Some (py "Alpha.pdf", Samples.alpha_bytes)) true
         Samples.alpha_session) = inr tt /\
  exists (page : list ui) (label file_name mime : str) (pdf_file : BytesIO),
    screen (fst (script Samples.open_upload (fun p => p) Samples.answering
                   Samples.all_files Samples.reliable Samples.with_api_key
                   (Some (py "Alpha.pdf", Samples.alpha_bytes)) true
                   Samples.alpha_session))
    = screen Samples.alpha_session ++ page
      ++ [DownloadButton label pdf_file file_name mime]
    /\ written page
       = py "**Analysis Results**" :: py "" ::
         flat_map (fun hb => [py "**" ++ fst hb ++ py ":**"; snd hb; py ""])
           (combine (tl (cell_texts (document pdf_file)))
              (multi_cell_texts (document pdf_file))).
Proof.
  assert (H : serve Samples.answering 0 (requests (prompts (py "ALPHA")))
              = (9, List.map inr (repeat (py "An answer.") 9)))
    by (vm_compute; reflexivity).
  assert (R : snd (script Samples.open_upload (fun p => p) Samples.answering
                     Samples.all_files Samples.reliable Samples.with_api_key
                     (Some (py "Alpha.pdf", Samples.alpha_bytes)) true
                     Samples.alpha_session) = inr tt)
    by (vm_compute; reflexivity).
  split; [exact H|]. split; [exact R|].
  exact (@screen_and_report_agree str Samples.open_upload (fun p => p)
           nat Samples.answering Samples.all_files Samples.reliable
           Samples.with_api_key
           (py "Alpha.pdf") Samples.alpha_bytes Samples.alpha_session
           (py "sk-sample") (py "ALPHA") 9 (repeat (py "An answer.") 9)
           eq_refl eq_refl H R).
Defined.

Lemma script_records_the_upload_witness :
  snd (script Samples.open_upload (fun p => p) Samples.answering
         Samples.all_files Samples.reliable Samples.with_api_key
         (Some (py "Beta.pdf", Samples.beta_bytes)) true
         Samples.alpha_session) = inr tt /\
  exists t,
    state (fst (script Samples.open_upload (fun p => p) Samples.answering
                  Samples.all_files Samples.reliable Samples.with_api_key
                  (Some (py "Beta.pdf", Samples.beta_bytes)) true
                  Samples.alpha_session))
    = {| current_movie := Some (Some (fst (splitext (py "Beta.pdf"))));
         screenplay_text := Some t |}.
Proof.
  assert (H : snd (script Samples.open_upload (fun p => p) Samples.answering
                     Samples.all_files Samples.reliable Samples.with_api_key
                     (Some (py "Beta.pdf", Samples.beta_bytes)) true
                     Samples.alpha_session) = inr tt)
    by (vm_compute; reflexivity).
  split; [exact H|].
  exact (@script_records_the_upload str Samples.open_upload (fun p => p)
           nat Samples.answering Samples.all_files Samples.reliable Samples.with_api_key
           (py "Beta.pdf") Samples.beta_bytes true Samples.alpha_session H).
Defined.

(* ================================================================== *)
(** * The movie name of an upload *)

Module PathFacts.
Import PosixPath.

Lemma rfind_from_absent (c : char) (p : str) :
  ~ In c p -> forall i, rfind_from c p i = (-1)%Z.
Proof.
  induction p as [|x p IH]; intros H i; [reflexivity|].
  cbn [rfind_from]. rewrite IH by (intros Hin; apply H; now right).
  cbn. destruct (N.eqb_spec x c) as [->|_]; [|reflexivity].
  exfalso. apply H. now left.
Qed.

Lemma rfind_from_last (c : char) (a b : str) :
  ~ In c b ->
  forall i, (0 <= i)%Z ->
    rfind_from c (a ++ c :: b) i = (i + Z.of_nat (List.length a))%Z.
Proof.
  intros Hb. induction a as [|x a IH]; intros i Hi.
  - cbn [List.app rfind_from List.length]. rewrite rfind_from_absent by exact Hb.
    cbn. rewrite N.eqb_refl. lia.
  - cbn [List.app rfind_from List.length]. rewrite IH by lia.
    destruct (Z.leb_spec 0 (i + 1 + Z.of_nat (List.length a))); lia.
Qed.

Lemma firstn_length_app (a b : str) : firstn (List.length a) (a ++ b) = a.
Proof. induction a as [|x a IH]; [reflexivity|]. cbn. now rewrite IH. Qed.

Lemma skipn_length_app (a b : str) : skipn (List.length a) (a ++ b) = b.
Proof. induction a as [|x a IH]; [reflexivity|]. exact IH. Qed.

End PathFacts.
Import PathFacts.

(** X26. For a file name made of a base name without slash that is not
    all dots, a dot and an extension without dot and slash, the movie name
    (the first component of [splitext]) is the base name; so an upload
    named [base.pdf] is offered back as [base-report.pdf]. *)
Theorem movie_name_of_upload (base ext : str) :
  ~ In PosixPath.c_slash base -> ~ In PosixPath.c_slash ext ->
  ~ In PosixPath.c_dot ext ->
  existsb (fun c => negb (N.eqb c PosixPath.c_dot)) base = true ->
  PosixPath.splitext (base ++ PosixPath.c_dot :: ext)
  = (base, PosixPath.c_dot :: ext).
Proof.
  intros Hsb Hse Hde Hb. unfold PosixPath.splitext, PosixPath.rfind.
  rewrite rfind_from_absent.
  2:{ intros H. apply in_app_or in H as [H|[H|H]]; auto. discriminate. }
  rewrite rfind_from_last by (auto; lia).
  rewrite Z.add_0_l.
  destruct (Z.ltb_spec (-1) (Z.of_nat (List.length base))); [|lia].
  unfold PosixPath.slice. change (-1 + 1)%Z with 0%Z.
  change (Z.to_nat 0) with 0. cbn [skipn].
  rewrite Z.sub_0_r, Nat2Z.id, firstn_length_app, Hb, skipn_length_app.
  reflexivity.
Qed.


Lemma movie_name_of_upload_witness :
  PosixPath.splitext (py "Alpha.pdf") = (py "Alpha", py ".pdf") /\
  fst (PosixPath.splitext (py "my.movie/draft.v2.pdf")) ++ py "-report.pdf"
  = py "my.movie/draft.v2-report.pdf".
Proof.
  split.
  - refine (@movie_name_of_upload (py "Alpha") (py "pdf") _ _ _ eq_refl);
      intros H; vm_compute in H; intuition discriminate.
  - reflexivity.
Defined.

(* ================================================================== *)
(** * Analysis Orchestrator: the calls of any run *)

Section OrchestratorRuns.
Import Orchestrator OrchestratorFacts.
Variable World : Type.
Variable remote : World -> request -> World * result str.

(** Whatever the service does, the loop sends the requests of a prefix of
    its list, in order and once each; it returns only after the whole
    list, and then every request was answered. *)
Lemma loop_prefix (ps : list (str * str)) :
  forall (acc : dict) (w : World) (tr : list request),
    exists k,
      k <= List.length ps
      /\ (ps <> [] -> 1 <= k)
      /\ sent (fst (for_each ps (loop_body remote) acc
                      {| world := w; sent := tr |}))
         = tr ++ firstn k (requests ps)
      /\ world (fst (for_each ps (loop_body remote) acc
                       {| world := w; sent := tr |}))
         = fst (serve remote w (firstn k (requests ps)))
      /\ (forall res,
            snd (for_each ps (loop_body remote) acc
                   {| world := w; sent := tr |}) = inr res ->
            k = List.length ps
            /\ exists resps,
                 snd (serve remote w (requests ps)) = List.map inr resps).
Proof.
  induction ps as [|[name prompt] ps IH]; intros acc w tr.
  - exists 0. cbn [for_each ret fst snd firstn requests List.map serve
                   List.length sent world].
    rewrite app_nil_r.
    split; [lia|]. split; [intros H; now contradiction H|].
    split; [reflexivity|]. split; [reflexivity|].
    intros res _. split; [reflexivity|]. now exists [].
  - cbn [for_each]. unfold bind at 1 2 3. rewrite loop_step.
    cbn [requests List.map snd].
    destruct (remote w (batch_request prompt)) as [w1 [e|a]] eqn:E.
    + exists 1. cbn [fst snd sent world firstn List.length serve].
      rewrite E. cbn [fst].
      split; [lia|]. split; [lia|]. split; [reflexivity|].
      split; [reflexivity|]. discriminate.
    + destruct (IH (dict_set acc name a) w1 (tr ++ [batch_request prompt]))
        as (k & Hk & _ & Hs & Hw & Hr).
      exists (S k). cbn [List.length firstn serve]. rewrite E.
      fold (requests ps).
      destruct (serve remote w1 (firstn k (requests ps))) as [w2 rs] eqn:E2.
      cbn [fst] in *.
      split; [lia|]. split; [lia|].
      split; [rewrite Hs, <- app_assoc; reflexivity|].
      split; [exact Hw|].
      intros res H. apply Hr in H as [-> [resps Hresps]].
      split; [reflexivity|].
      destruct (serve remote w1 (requests ps)) as [w3 rs3].
      cbn [snd] in *. exists (a :: resps). cbn [List.map]. now f_equal.
Qed.

(** X27. Whatever the remote service does, [get_all_analyses_single] sends
    between one and nine requests: the first ones of the nine, in the
    fixed order, each once; the service is left in the state these put it
    in. It returns a result only after all nine, and the result then has
    the nine category names as keys, in the fixed order. *)
Theorem orchestrator_sends_a_prefix
  (screenplay_text : str) (w : World) (tr : list request) :
  exists k,
    1 <= k <= 9
    /\ sent (fst (get_all_analyses_single remote screenplay_text
                    {| world := w; sent := tr |}))
       = tr ++ firstn k (requests (prompts screenplay_text))
    /\ world (fst (get_all_analyses_single remote screenplay_text
                     {| world := w; sent := tr |}))
       = fst (serve remote w
                (firstn k (requests (prompts screenplay_text))))
    /\ (forall results,
          snd (get_all_analyses_single remote screenplay_text
                 {| world := w; sent := tr |}) = inr results ->
          k = 9 /\ keys results = categories).
Proof.
  rewrite get_all_unfold.
  destruct (loop_prefix (prompts screenplay_text) [] w tr)
    as (k & Hk & H1 & Hs & Hw & Hr).
  exists k. change (List.length (prompts screenplay_text)) with 9 in *.
  split; [split; [apply H1; discriminate|exact Hk]|].
  split; [exact Hs|]. split; [exact Hw|].
  intros results H. destruct (Hr _ H) as [-> [resps Hresps]].
  split; [reflexivity|].
  destruct (serve remote w (requests (prompts screenplay_text)))
    as [w' outs] eqn:E. cbn [snd] in Hresps. subst outs.
  rewrite <- get_all_unfold in H.
  rewrite (get_all_answered remote screenplay_text w tr resps E) in H.
  cbn [snd] in H.
  replace results with (combine categories resps) by congruence.
  apply keys_combine. apply serve_length in E. now rewrite length_map in E.
Qed.

(** X9. Every request [get_all_analyses_single] sends, whatever the text
    and whatever the service does, names the model gpt-4o-mini, the fixed
    system instruction, temperature 0.7 and at most 1200 tokens of output
    (not the 1500 that [call_openai_single] has as its default). *)
Theorem sent_requests_parameters
  (screenplay_text : str) (w : World) (tr : list request) :
  exists new,
    sent (fst (get_all_analyses_single remote screenplay_text
                 {| world := w; sent := tr |})) = tr ++ new
    /\ new <> []
    /\ Forall (fun q => model q = py "gpt-4o-mini"
                        /\ system_content q = system_prompt
                        /\ temperature q = (7, 10)%N
                        /\ max_tokens q = 1200%N) new.
Proof.
  rewrite get_all_unfold.
  destruct (loop_prefix (prompts screenplay_text) [] w tr)
    as (k & _ & H1 & Hs & _).
  exists (firstn k (requests (prompts screenplay_text))).
  split; [exact Hs|]. split.
  - assert (1 <= k) as Hk by (apply H1; discriminate).
    destruct k as [|k]; [lia|]. discriminate.
  - assert (F : Forall (fun q => model q = py "gpt-4o-mini"
                                 /\ system_content q = system_prompt
                                 /\ temperature q = (7, 10)%N
                                 /\ max_tokens q = 1200%N)
                  (requests (prompts screenplay_text)))
      by (repeat constructor).
    rewrite Forall_forall in *. intros q Hq. apply F.
    rewrite <- (firstn_skipn k (requests (prompts screenplay_text))).
    apply in_or_app. now left.
Qed.

End OrchestratorRuns.
